(** * Expense-reimbursement agents: a shallow embedding and its properties

    The development follows two Python modules:

    - [samples/python/agents/taxi_reimbursement_agent/agent.py]
      (module [Taxi] below): the pickup-location and pickup-time
      validators, the request-id ledger and [reimburse_taxi];
    - [samples/python/agents/finace_server/agent.py] (module [Finance]):
      [FinanceAgent._check_compliance], [invoke] and [stream].

    Python [str] values are modelled as Rocq strings holding the UTF-8
    bytes of the text.  For well-formed UTF-8 a byte-level substring test
    coincides with Python's code-point-level [in], because no encoded
    character can start in the middle of another one. *)

From Stdlib Require Import ZArith List Ascii Bool Lia.
From Stdlib Require Import Floats.
From stdpp Require Import gmap strings pretty.

Set Warnings "-register-all".

(** ** Python [str] helpers *)

Module PyStr.

(** [needle in haystack] on [str]: some suffix of [haystack] starts with
    [needle]. *)
Fixpoint contains (needle haystack : string) : bool :=
  if String.prefix needle haystack then true
  else match haystack with
       | EmptyString => false
       | String _ rest => contains needle rest
       end.

(** Truthiness of an optional [str] argument ([not x] is true for [None]
    and for the empty string). *)
Definition falsy (x : option string) : bool :=
  match x with
  | None => true
  | Some EmptyString => true
  | Some _ => false
  end.

End PyStr.

(** ** The taxi reimbursement agent *)

Module Taxi.

Local Open Scope Z_scope.

(** *** Pickup location: [is_valid_pickup_location] *)

Definition primary_building : string := "中关村资本大厦".

Definition VALID_PICKUP_LOCATIONS : list string :=
  ["中关村资本大厦"; "中关村资本大厦北门"; "海淀区学院南路"; "学院南路"; "资本大厦"].

Definition INVALID_LOCATION_KEYWORDS : list string :=
  ["中关村"; "望京"; "国贸"].

(** The first [for] loop: [Some true] stands for [return True], [None] for
    falling out of the loop. *)
Fixpoint scan_valid_locations (vs : list string) (location : string) : option bool :=
  match vs with
  | [] => None
  | valid_location :: vs' =>
      if PyStr.contains valid_location location then Some true
      else scan_valid_locations vs' location
  end.

(** The second [for] loop: [Some false] stands for [return False]. *)
Fixpoint scan_invalid_keywords (ks : list string) (location : string) : option bool :=
  match ks with
  | [] => None
  | keyword :: ks' =>
      if PyStr.contains keyword location
         && negb (PyStr.contains primary_building location)
      then Some false
      else scan_invalid_keywords ks' location
  end.

Definition is_valid_pickup_location (location : string) : bool :=
  match scan_valid_locations VALID_PICKUP_LOCATIONS location with
  | Some r => r
  | None =>
      match scan_invalid_keywords INVALID_LOCATION_KEYWORDS location with
      | Some r => r
      | None => false
      end
  end.

(** *** Pickup time: [is_valid_pickup_time] *)

(** [datetime.time]: compared field by field, in this order. *)
Record time := mk_time { hour : Z; minute : Z; second : Z; microsecond : Z }.

Definition time_leb (a b : time) : bool :=
  if hour a <? hour b then true
  else if hour b <? hour a then false
  else if minute a <? minute b then true
  else if minute b <? minute a then false
  else if second a <? second b then true
  else if second b <? second a then false
  else microsecond a <=? microsecond b.

(** The order on times, spelled out (lexicographic). *)
Definition time_le (a b : time) : Prop :=
  hour a < hour b \/
  (hour a = hour b /\
   (minute a < minute b \/
    (minute a = minute b /\
     (second a < second b \/
      (second a = second b /\ microsecond a <= microsecond b))))).

Definition night_start : time := mk_time 21 0 0 0.
Definition morning_end : time := mk_time 5 0 0 0.

(** Outcome of [datetime.strptime(pickup_time, fmt).time()]: a time, a
    [ValueError] (the format does not match), or any other exception, kept
    as its [str(e)] text. *)
Inductive strptime_result :=
| Parsed (t : time)
| ValueError
| OtherException (text : string).

Definition formats : list string :=
  ["%H:%M"; "%H点%M分"; "%H时%M分"; "%H点"; "%H时"].

Inductive attempt :=
| Found (parsed_time : option time)
| Escaped (text : string).

Section PickupTime.

(** [datetime.strptime(s, fmt).time()] belongs to the Python runtime; the
    validator is written, and its window property proved, for any
    implementation of it. *)
Variable strptime : string -> string -> strptime_result.

(** The [for fmt in formats] loop with its inner [try]: [break] on the
    first success, [continue] on [ValueError]; any other exception leaves
    the loop and reaches the outer [except Exception]. *)
Fixpoint try_formats (fmts : list string) (pickup_time : string) : attempt :=
  match fmts with
  | [] => Found None
  | fmt :: fmts' =>
      match strptime pickup_time fmt with
      | Parsed t => Found (Some t)
      | ValueError => try_formats fmts' pickup_time
      | OtherException text => Escaped text
      end
  end.

Definition in_window (parsed_time : time) : bool :=
  time_leb night_start parsed_time || time_leb parsed_time morning_end.

Definition is_valid_pickup_time (pickup_time : string) : bool * string :=
  match try_formats formats pickup_time with
  | Escaped text => (false, "时间格式错误: " +:+ text +:+ "，请使用 HH:MM 格式")
  | Found None => (false, "无法识别的时间格式，请使用 HH:MM 格式")
  | Found (Some parsed_time) =>
      if in_window parsed_time then (true, "")
      else (false, "上车时间 " +:+ pickup_time
                   +:+ " 不在允许的时间范围内（晚上9点到次日凌晨5点）")
  end.

(** *** The request ledger and [reimburse_taxi] *)

(** The decision dictionary: ["reason"] is present only on rejection. *)
Record decision := mk_decision {
  d_request_id : string;
  d_status : string;
  d_reason : option string
}.

Definition rejected (request_id reason : string) : decision :=
  mk_decision request_id "拒绝" (Some reason).

Definition approved (request_id : string) : decision :=
  mk_decision request_id "批准" None.

Definition location_reason (pickup_location : string) : string :=
  "上车地点'" +:+ pickup_location +:+ "'不符合公司规定，必须是中关村资本大厦附近".

(** [request_ids] is the module-level set, passed explicitly. *)
Definition reimburse_taxi (request_ids : gset string)
    (request_id pickup_location pickup_time : string) : decision :=
  if bool_decide (request_id ∉ request_ids) then
    rejected request_id "无效的请求ID"
  else if negb (is_valid_pickup_location pickup_location) then
    rejected request_id (location_reason pickup_location)
  else
    let '(valid_time, time_error) := is_valid_pickup_time pickup_time in
    if negb valid_time then rejected request_id time_error
    else approved request_id.

End PickupTime.

(** The form dictionary returned by [create_taxi_request_form]. *)
Record form := mk_form {
  f_request_id : string;
  f_pickup_location : string;
  f_pickup_time : string;
  f_date : string;
  f_amount : string
}.

Definition or_placeholder (placeholder : string) (x : option string) : string :=
  match x with
  | Some v => if PyStr.falsy x then placeholder else v
  | None => placeholder
  end.

Definition request_id_of (n : Z) : string := "request_id_" +:+ pretty n.

(** [create_taxi_request_form]: [n] is the value [random.randint(1000000,
    9999999)] returned for this call; the function returns the form and the
    updated [request_ids]. *)
Definition create_taxi_request_form (n : Z) (request_ids : gset string)
    (pickup_location pickup_time date amount : option string)
    : form * gset string :=
  let request_id := request_id_of n in
  (mk_form request_id
     (or_placeholder "<上车地点>" pickup_location)
     (or_placeholder "<上车时间（24小时制，如 21:30）>" pickup_time)
     (or_placeholder "<乘车日期>" date)
     (or_placeholder "<打车费金额>" amount),
   {[request_id]} ∪ request_ids).

(** The values [random.randint(1000000, 9999999)] can return. *)
Definition randint_range (n : Z) : Prop := 1000000 <= n <= 9999999.

(** The ledger after a run of form creations (the process starts with the
    empty set); [draws] lists the random values, oldest first. *)
Definition ledger_after (draws : list Z) : gset string :=
  fold_left (fun ids n => snd (create_taxi_request_form n ids None None None None))
            draws ∅.

(** *** A model of [datetime.strptime(s, fmt).time()]

    CPython turns the format into a regular expression ([%H] becomes
    [2[0-3]|[0-1]\d|\d], [%M] becomes [[0-5]\d|\d], any other character
    stands for itself), matches it at the start of the input trying the
    alternatives in this order, and raises [ValueError] when nothing
    matches or when input is left over; [int] then reads the digits
    matched.  Only the two directives used by [formats] are modelled.  The
    expression is compiled for [str], so [\d] matches a decimal digit of
    any script and [int] reads it by its decimal value, while the literal
    [2] and the classes [[0-1]], [[0-3]] and [[0-5]] match ASCII characters
    only.  The case-insensitive matching of letters plays no part (the
    literal characters of [formats] have no case). *)

Inductive directive :=
| DHour
| DMinute
| DLit (c : ascii).

Fixpoint directives (fmt : string) : list directive :=
  match fmt with
  | EmptyString => []
  | String c rest =>
      match rest with
      | String d rest' =>
          if Ascii.eqb c "%" && Ascii.eqb d "H" then DHour :: directives rest'
          else if Ascii.eqb c "%" && Ascii.eqb d "M" then DMinute :: directives rest'
          else DLit c :: directives rest
      | EmptyString => [DLit c]
      end
  end.

Definition byte_value (c : ascii) : Z := Z.of_nat (nat_of_ascii c).

(** The first character of a text, as its code point, and the text after
    it (UTF-8: one to four bytes, by the lead byte). *)
Definition code_point (s : string) : option (Z * string) :=
  match s with
  | EmptyString => None
  | String a rest =>
      let x := byte_value a in
      if x <? 128 then Some (x, rest)
      else if x <? 192 then None
      else if x <? 224 then
        match rest with
        | String b rest' => Some ((x - 192) * 64 + (byte_value b - 128), rest')
        | _ => None
        end
      else if x <? 240 then
        match rest with
        | String b (String c rest') =>
            Some ((x - 224) * 4096 + (byte_value b - 128) * 64 + (byte_value c - 128), rest')
        | _ => None
        end
      else
        match rest with
        | String b (String c (String d rest')) =>
            Some ((x - 240) * 262144 + (byte_value b - 128) * 4096
                  + (byte_value c - 128) * 64 + (byte_value d - 128), rest')
        | _ => None
        end
  end.

(** The digit zero of every script that has decimal digits (the
    characters of category Nd come in runs of ten, zero first), as of the
    Unicode data of CPython 3.11: ASCII, Arabic-Indic, ..., fullwidth
    (65296), ... *)
Definition decimal_zeros : list Z :=
  [48; 1632; 1776; 1984; 2406; 2534; 2662; 2790; 2918; 3046; 3174; 3302;
   3430; 3558; 3664; 3792; 3872; 4160; 4240; 6112; 6160; 6470; 6608; 6784;
   6800; 6992; 7088; 7232; 7248; 42528; 43216; 43264; 43472; 43504; 43600;
   44016; 65296; 66720; 68912; 69734; 69872; 69942; 70096; 70384; 70736;
   70864; 71248; 71360; 71472; 71904; 72016; 72784; 73040; 73120; 92768;
   92864; 93008; 120782; 120792; 120802; 120812; 120822; 123200; 123632;
   125264; 130032].

(** The decimal value of a character, if it is a decimal digit. *)
Definition decimal (cp : Z) : option Z :=
  match List.find (fun zero => (zero <=? cp) && (cp <=? zero + 9)) decimal_zeros with
  | Some zero => Some (cp - zero)
  | None => None
  end.

(** [\d]: a decimal digit of any script at the head of [s]. *)
Definition digit (s : string) : option (Z * string) :=
  match code_point s with
  | Some (cp, rest) =>
      match decimal cp with
      | Some v => Some (v, rest)
      | None => None
      end
  | None => None
  end.

(** The class [[lo-hi]] of ASCII digits ([2] is [[2-2]]). *)
Definition ascii_digit (lo hi : Z) (s : string) : option (Z * string) :=
  match s with
  | String a rest =>
      let v := byte_value a - 48 in
      if (lo <=? v) && (v <=? hi) then Some (v, rest) else None
  | EmptyString => None
  end.

Definition or_else {A} (x y : option A) : option A :=
  match x with
  | Some _ => x
  | None => y
  end.

(** Two digits, the first read by [first] and the second by [second],
    then the continuation [k] on the value and the remaining input. *)
Definition two_digits {A} (first second : string -> option (Z * string))
    (s : string) (k : Z -> string -> option A) : option A :=
  match first s with
  | Some (x, s') =>
      match second s' with
      | Some (y, rest) => k (10 * x + y) rest
      | None => None
      end
  | None => None
  end.

Definition one_digit {A} (s : string) (k : Z -> string -> option A) : option A :=
  match digit s with
  | Some (x, rest) => k x rest
  | None => None
  end.

(** Backtracking match; the result is the hour, the minute and the input
    left over. *)
Fixpoint regex_match (ds : list directive) (s : string) (h m : Z)
    : option (Z * Z * string) :=
  match ds with
  | [] => Some (h, m, s)
  | DLit c :: ds' =>
      match s with
      | String c' s' => if Ascii.eqb c c' then regex_match ds' s' h m else None
      | EmptyString => None
      end
  | DHour :: ds' =>
      let k := fun v rest => regex_match ds' rest v m in
      or_else (two_digits (ascii_digit 2 2) (ascii_digit 0 3) s k)
        (or_else (two_digits (ascii_digit 0 1) digit s k) (one_digit s k))
  | DMinute :: ds' =>
      let k := fun v rest => regex_match ds' rest h v in
      or_else (two_digits (ascii_digit 0 5) digit s k) (one_digit s k)
  end.

Definition strptime_time (s fmt : string) : strptime_result :=
  match regex_match (directives fmt) s 0 0 with
  | Some (h, m, EmptyString) => Parsed (mk_time h m 0 0)
  | Some (_, _, String _ _) => ValueError
  | None => ValueError
  end.

(** A wall-clock time of whole minutes, as the formats above give. *)
Definition whole_minute (t : time) : Prop :=
  0 <= hour t <= 23 /\ 0 <= minute t <= 59 /\ second t = 0 /\ microsecond t = 0.

(** The time the validator works with: the first format that parses. *)
Definition parsed_pickup_time (pickup_time : string) : option time :=
  match try_formats strptime_time formats pickup_time with
  | Found t => t
  | Escaped _ => None
  end.

(** A wall-clock time written the usual way, two digits each: "05:07". *)
Definition two_digit_text (n : Z) : string :=
  (if n <? 10 then "0" else "") +:+ pretty n.

Definition hhmm (h m : Z) : string :=
  two_digit_text h +:+ ":" +:+ two_digit_text m.

End Taxi.

(** ** The finance compliance agent *)

Module Finance.

Local Open Scope Z_scope.

(** *** Python values

    What [json.loads] produces: [None], [bool], [int], [float] (binary64,
    the kernel's primitive floats), [str], [list] and [dict] with [str]
    keys.  A [dict] keeps its insertion order and is an association list;
    the first binding of a key is the one Python sees. *)

Inductive json :=
| JNull
| JBool (b : bool)
| JInt (z : Z)
| JFloat (f : float)
| JStr (s : string)
| JList (items : list json)
| JDict (fields : list (string * json)).

(** Exceptions, by class, with the value that caused them. *)
Inductive exn :=
| ValueError (v : json)
| TypeError (v : json)
| AttributeError (v : json)
| OverflowError (v : json)
| KeyError (v : json)
| JSONDecodeError (doc : string)
| OtherError (text : string).

(** A computation that returns or raises. *)
Inductive result (A : Type) :=
| Ok (a : A)
| Raise (e : exn).

Arguments Ok {A} a.
Arguments Raise {A} e.

#[export] Instance result_ret : MRet result := fun A a => Ok a.
#[export] Instance result_bind : MBind result := fun A B k m =>
  match m with
  | Ok a => k a
  | Raise e => Raise e
  end.

(** [d.get(k)], [k in d] and [d[k] = v] on an insertion-ordered dict. *)
Fixpoint dict_get (d : list (string * json)) (k : string) : option json :=
  match d with
  | [] => None
  | (k', v) :: d' => if String.eqb k' k then Some v else dict_get d' k
  end.

Definition dict_get_default (d : list (string * json)) (k : string) (dflt : json) : json :=
  match dict_get d k with
  | Some v => v
  | None => dflt
  end.

Definition dict_mem (d : list (string * json)) (k : string) : bool :=
  match dict_get d k with
  | Some _ => true
  | None => false
  end.

Fixpoint dict_set (d : list (string * json)) (k : string) (v : json)
    : list (string * json) :=
  match d with
  | [] => [(k, v)]
  | (k', v') :: d' =>
      if String.eqb k' k then (k', v) :: d' else (k', v') :: dict_set d' k v
  end.

(** [float(int)]: round to nearest, ties to even; Python raises
    [OverflowError] when the rounded value is not finite. *)
Definition float_of_int (z : Z) : float :=
  SF2Prim (binary_normalize 53 1024 z 0 false).

(** [bool(v)], used by [not has_invoice]. *)
Definition truthy (v : json) : bool :=
  match v with
  | JNull => false
  | JBool b => b
  | JInt z => negb (z =? 0)
  | JFloat f => negb (f =? 0)%float
  | JStr s => negb (String.eqb s "")
  | JList items => match items with [] => false | _ :: _ => true end
  | JDict fields => match fields with [] => false | _ :: _ => true end
  end.

(** Lists and dicts are unhashable: using one as a dict key raises
    [TypeError]. *)
Definition hashable (v : json) : bool :=
  match v with
  | JList _ | JDict _ => false
  | _ => true
  end.

(** [f == z] for a float and an int is exact in Python. *)
Definition float_eq_int (f : float) (z : Z) : bool :=
  match Prim2SF f with
  | S754_zero _ => z =? 0
  | S754_finite s m e =>
      let v := if s then Z.neg m else Z.pos m in
      if 0 <=? e then z =? v * 2 ^ e else z * 2 ^ (- e) =? v
  | S754_infinity _ => false
  | S754_nan => false
  end.

Definition int_of_bool (b : bool) : Z := if b then 1 else 0.

(** Whether a dict lookup takes [a] and [b] for the same key, which it
    tests as [a is b or a == b]: [True == 1 == 1.0], and values of
    different kinds are different.  A NaN equals nothing, itself included,
    so a NaN key is found again by identity alone: [json.loads] returns one
    and the same object ([json.decoder.NaN]) for every NaN of a text, and
    the NaN keys of a decoded query are therefore one key.  (Values carry
    no identity here: separate NaN objects, which only a query built in
    process can hold, are not told apart.) *)
Definition key_eqb (a b : json) : bool :=
  match a, b with
  | JNull, JNull => true
  | JStr s, JStr t => String.eqb s t
  | JBool x, JBool y => int_of_bool x =? int_of_bool y
  | JBool x, JInt y => int_of_bool x =? y
  | JInt x, JBool y => x =? int_of_bool y
  | JInt x, JInt y => x =? y
  | JFloat x, JFloat y => (x =? y)%float || (is_nan x && is_nan y)
  | JFloat x, JInt y => float_eq_int x y
  | JInt x, JFloat y => float_eq_int y x
  | JFloat x, JBool y => float_eq_int x (int_of_bool y)
  | JBool x, JFloat y => float_eq_int y (int_of_bool x)
  | _, _ => false
  end.

(** A key that is a NaN float: the one kind of key whose lookup is
    decided by identity. *)
Definition nan_key (v : json) : bool :=
  match v with
  | JFloat x => is_nan x
  | _ => false
  end.

(** *** The rule table [self.reimbursement_rules] *)

(** One rule dictionary; the keys that only some rules have are options. *)
Record rule := mk_rule {
  max_amount : float;              (* "最高限额" *)
  invoice_required : bool;         (* "需要发票" *)
  daily_count_limit : option Z;    (* "每日次数限制" *)
  remark : option string;          (* "备注" *)
  extra_approval : option bool     (* "需要额外审批" *)
}.

Definition meals : string := "餐饮费".
Definition other : string := "其他".

Definition reimbursement_rules : list (string * rule) :=
  [ ("交通费", mk_rule 300 true None (Some "火车限二等座，飞机限经济舱") None);
    ("餐饮费", mk_rule 100 true (Some 3) None None);
    ("住宿费", mk_rule 500 true None (Some "限标准间") None);
    ("办公用品", mk_rule 200 true None None None);
    ("其他", mk_rule 100 true None None (Some true)) ].

Fixpoint rules_get (rules : list (string * rule)) (category : string) : option rule :=
  match rules with
  | [] => None
  | (k, r) :: rules' => if String.eqb k category then Some r else rules_get rules' category
  end.

(** The per-date accumulator [{"count": ..., "total": ...}]. *)
Record meal_entry := mk_meal_entry { count : Z; total : float }.

Definition bump_entry (e : meal_entry) (amount : float) : meal_entry :=
  mk_meal_entry (count e + 1) (total e + amount)%float.

(** The accumulator update of one meal item,

      if date not in daily_meals: daily_meals[date] = {"count": 0, "total": 0.0}
      daily_meals[date]["count"] += 1
      daily_meals[date]["total"] += amount

    returning the new dictionary and [daily_meals[date]["count"]].  A date
    that is none of the existing keys gets a fresh entry at the end. *)
Fixpoint bump (daily_meals : list (json * meal_entry)) (date : json) (amount : float)
    : list (json * meal_entry) * Z :=
  match daily_meals with
  | [] =>
      let e := bump_entry (mk_meal_entry 0 0) amount in
      ([(date, e)], count e)
  | (k, e) :: rest =>
      if key_eqb k date then
        let e' := bump_entry e amount in ((k, e') :: rest, count e')
      else
        let '(rest', c) := bump rest date amount in ((k, e) :: rest', c)
  end.

(** The count recorded for [date] (0 when it has no entry). *)
Fixpoint meal_count (daily_meals : list (json * meal_entry)) (date : json) : Z :=
  match daily_meals with
  | [] => 0
  | (k, e) :: rest => if key_eqb k date then count e else meal_count rest date
  end.

(** Iterating a [str] yields its characters: a UTF-8 lead byte with the
    continuation bytes (10xxxxxx) that follow it. *)
Definition is_continuation (c : ascii) : bool :=
  let n := Z.of_nat (nat_of_ascii c) in (128 <=? n) && (n <? 192).

Fixpoint code_points (s : string) : list string :=
  match s with
  | EmptyString => []
  | String c rest =>
      let l := code_points rest in
      match rest with
      | EmptyString => [String c EmptyString]
      | String d _ =>
          if is_continuation d then
            match l with
            | x :: l' => String c x :: l'
            | [] => [String c EmptyString]
            end
          else String c EmptyString :: l
      end
  end.

(** [for expense in expenses] and [len(expenses)]: a list yields its
    items, a dict its keys, a str its characters; nothing else iterates. *)
Definition py_iter (v : json) : result (list json) :=
  match v with
  | JList items => Ok items
  | JDict fields => Ok (map (fun kv => JStr (fst kv)) fields)
  | JStr s => Ok (map JStr (code_points s))
  | _ => Raise (TypeError v)
  end.

(** What the loop body decides about one item: the local variables
    [amount], [is_compliant] and [reasons]. *)
Record verdict := mk_verdict {
  v_amount : float;
  v_is_compliant : bool;
  v_reasons : list string
}.

(** The local variables of [_check_compliance]. *)
Record loop_state := mk_state {
  total_amount : float;
  compliant_expenses : list json;
  non_compliant_expenses : list json;
  daily_meals : list (json * meal_entry)
}.

Definition initial_state : loop_state := mk_state 0 [] [] [].

(** The returned dictionary, one field per key: "合规报销", "不合规报销",
    "合规报销总金额", "报销项目总数", "合规项目数", "不合规项目数". *)
Record batch_result := mk_result {
  r_compliant : list json;
  r_non_compliant : list json;
  r_total_amount : float;
  r_item_count : Z;
  r_compliant_count : Z;
  r_non_compliant_count : Z
}.

Definition result_to_json (r : batch_result) : json :=
  JDict [ ("合规报销", JList (r_compliant r));
          ("不合规报销", JList (r_non_compliant r));
          ("合规报销总金额", JFloat (r_total_amount r));
          ("报销项目总数", JInt (r_item_count r));
          ("合规项目数", JInt (r_compliant_count r));
          ("不合规项目数", JInt (r_non_compliant_count r)) ].

Section Agent.

(** The Python runtime, as far as the agent relies on it:
    - [float_of_str s] is [float(s)] for a [str] ([None]: [ValueError]);
    - [str_float f] is the text an f-string gives a float;
    - [json_loads] is [json.loads];
    - [json_dumps indent v] is [json.dumps(v, ensure_ascii=False,
      indent=indent)];
    - [str_exn e] is [str(e)].
    Every statement below holds for any such functions. *)
Variable float_of_str : string -> option float.
Variable str_float : float -> string.
Variable json_loads : string -> result json.
Variable json_dumps : option Z -> json -> string.
Variable str_exn : exn -> string.

(** [float(v)]. *)
Definition py_float (v : json) : result float :=
  match v with
  | JFloat f => Ok f
  | JInt z =>
      let f := float_of_int z in
      if is_infinity f then Raise (OverflowError v) else Ok f
  | JBool b => Ok (float_of_int (int_of_bool b))
  | JStr s =>
      match float_of_str s with
      | Some f => Ok f
      | None => Raise (ValueError v)
      end
  | JNull | JList _ | JDict _ => Raise (TypeError v)
  end.

(** [if category not in self.reimbursement_rules: category = "其他"]. *)
Definition resolve_category (category : json) : result string :=
  if negb (hashable category) then Raise (TypeError category)
  else match category with
       | JStr s =>
           match rules_get reimbursement_rules s with
           | Some _ => Ok s
           | None => Ok other
           end
       | _ => Ok other
       end.

(** [self.reimbursement_rules[category]]. *)
Definition lookup_rule (category : string) : result rule :=
  match rules_get reimbursement_rules category with
  | Some r => Ok r
  | None => Raise (KeyError (JStr category))
  end.

(** [rule["每日次数限制"]]. *)
Definition rule_daily_limit (r : rule) : result Z :=
  match daily_count_limit r with
  | Some l => Ok l
  | None => Raise (KeyError (JStr "每日次数限制"))
  end.

Definition cap_reason (category : string) (r : rule) : string :=
  "超出" +:+ category +:+ "最高限额" +:+ str_float (max_amount r) +:+ "元".

Definition invoice_reason (category : string) : string :=
  category +:+ "需要提供发票".

Definition daily_limit_reason (limit : Z) : string :=
  "超出餐饮费每日" +:+ pretty limit +:+ "次限制".

(** The fields read from one expense dictionary. *)
Definition item_category (fields : list (string * json)) : json :=
  dict_get_default fields "类别" (JStr other).

Definition item_amount (fields : list (string * json)) : result float :=
  py_float (dict_get_default fields "金额" (JInt 0)).

Definition item_date (today : string) (fields : list (string * json)) : json :=
  dict_get_default fields "日期" (JStr today).

Definition item_has_invoice (fields : list (string * json)) : json :=
  dict_get_default fields "是否有发票" (JBool false).

(** The two unconditional checks (limit, invoice), from
    [is_compliant = True; reasons = []]. *)
Definition basic_checks (category : string) (r : rule) (amount : float)
    (has_invoice : json) : bool * list string :=
  let is_compliant := true in
  let reasons := [] in
  let '(is_compliant, reasons) :=
    if (max_amount r <? amount)%float
    then (false, reasons ++ [cap_reason category r])
    else (is_compliant, reasons) in
  if invoice_required r && negb (truthy has_invoice)
  then (false, reasons ++ [invoice_reason category])
  else (is_compliant, reasons).

(** The loop body up to "记录结果": the verdict on one expense dictionary
    and the accumulator after it. *)
Definition judge (today : string) (daily_meals : list (json * meal_entry))
    (fields : list (string * json))
    : result (verdict * list (json * meal_entry)) :=
  let category := item_category fields in
  amount ← item_amount fields;
  let date := item_date today fields in
  let has_invoice := item_has_invoice fields in
  category ← resolve_category category;
  r ← lookup_rule category;
  let '(is_compliant, reasons) := basic_checks category r amount has_invoice in
  if String.eqb category meals then
    if negb (hashable date) then Raise (TypeError date)
    else
      let '(daily_meals, n) := bump daily_meals date amount in
      limit ← rule_daily_limit r;
      if limit <? n
      then Ok (mk_verdict amount false (reasons ++ [daily_limit_reason limit]),
               daily_meals)
      else Ok (mk_verdict amount is_compliant reasons, daily_meals)
  else Ok (mk_verdict amount is_compliant reasons, daily_meals).

(** "记录结果": the annotated copy goes to one of the two lists. *)
Definition annotate (fields : list (string * json)) (v : verdict) : json :=
  let expense_result := dict_set fields "合规" (JBool (v_is_compliant v)) in
  if v_is_compliant v then JDict expense_result
  else JDict (dict_set expense_result "原因" (JList (map JStr (v_reasons v)))).

Definition record_verdict (st : loop_state) (fields : list (string * json))
    (v : verdict) (daily_meals' : list (json * meal_entry)) : loop_state :=
  if v_is_compliant v then
    mk_state (total_amount st + v_amount v)%float
             (compliant_expenses st ++ [annotate fields v])
             (non_compliant_expenses st)
             daily_meals'
  else
    mk_state (total_amount st)
             (compliant_expenses st)
             (non_compliant_expenses st ++ [annotate fields v])
             daily_meals'.

(** One iteration of [for expense in expenses]; [expense.get] exists on
    dictionaries only. *)
Definition check_item (today : string) (st : loop_state) (expense : json)
    : result loop_state :=
  match expense with
  | JDict fields =>
      '(v, daily_meals') ← judge today (daily_meals st) fields;
      Ok (record_verdict st fields v daily_meals')
  | _ => Raise (AttributeError expense)
  end.

Fixpoint run_loop (today : string) (st : loop_state) (expenses : list json)
    : result loop_state :=
  match expenses with
  | [] => Ok st
  | expense :: rest =>
      st' ← check_item today st expense;
      run_loop today st' rest
  end.

(** [FinanceAgent._check_compliance]; [today] is what
    [datetime.datetime.now().strftime("%Y-%m-%d")] gives during the call
    (one value: the call is taken not to run across midnight). *)
Definition _check_compliance (today : string) (expenses : json)
    : result batch_result :=
  items ← py_iter expenses;
  st ← run_loop today initial_state items;
  Ok (mk_result (compliant_expenses st)
                (non_compliant_expenses st)
                (total_amount st)
                (Z.of_nat (length items))
                (Z.of_nat (length (compliant_expenses st)))
                (Z.of_nat (length (non_compliant_expenses st)))).

(** *** Vocabulary for the statements *)

(** The amount of an (annotated) expense dictionary, as the loop reads it. *)
Definition amount_of (item : json) : result float :=
  match item with
  | JDict fields => item_amount fields
  | _ => Raise (AttributeError item)
  end.

(** The verdicts of a run of the loop, item by item, and the accumulator
    at its end: the loop body without the bookkeeping of the result lists. *)
Fixpoint verdicts (today : string) (daily_meals : list (json * meal_entry))
    (expenses : list json) : result (list verdict * list (json * meal_entry)) :=
  match expenses with
  | [] => Ok ([], daily_meals)
  | JDict fields :: rest =>
      '(v, daily_meals') ← judge today daily_meals fields;
      '(vs, daily_meals'') ← verdicts today daily_meals' rest;
      Ok (v :: vs, daily_meals'')
  | expense :: _ => Raise (AttributeError expense)
  end.

(** The annotated copies of the items judged compliant ([flag = true]) or
    non-compliant ([flag = false]), in the order of the items. *)
Fixpoint outputs (flag : bool) (expenses : list json) (vs : list verdict) : list json :=
  match expenses, vs with
  | JDict fields :: rest, v :: vs' =>
      if Bool.eqb (v_is_compliant v) flag
      then annotate fields v :: outputs flag rest vs'
      else outputs flag rest vs'
  | _, _ => []
  end.

(** *** [invoke] and [stream] *)

Definition missing_json : string := "MISSING_INFO: 请提供有效的JSON格式报销数据".
Definition missing_expenses : string :=
  "MISSING_INFO: 请提供包含expenses字段的报销数据，格式为JSON".
Definition failure (e : exn) : string := "处理报销请求时出错: " +:+ str_exn e.

(** [data = json.loads(query) if isinstance(query, str) else query]. *)
Definition load_query (query : json) : result json :=
  match query with
  | JStr s => json_loads s
  | _ => Ok query
  end.

(** The outcome of [isinstance(data, dict) and "expenses" in data] and of
    the evaluation behind it: [None] stands for the [else] branch. *)
Definition evaluate (today : string) (data : json) : result (option batch_result) :=
  match data with
  | JDict fields =>
      match dict_get fields "expenses" with
      | Some expenses => r ← _check_compliance today expenses; Ok (Some r)
      | None => Ok None
      end
  | _ => Ok None
  end.

Definition invoke (today : string) (query : json) : string :=
  match (data ← load_query query; evaluate today data) with
  | Ok (Some r) => json_dumps (Some 2) (result_to_json r)
  | Ok None => missing_expenses
  | Raise (JSONDecodeError _) => missing_json
  | Raise e => failure e
  end.

(** The dictionaries [stream] yields: [{"is_task_complete": False,
    "updates": text}] and [{"is_task_complete": True, "content": c}], where
    [c] is a string or [{"response": {"result": text}}]. *)
Inductive content :=
| Text (text : string)
| Response (result_text : string).

Inductive event :=
| InProgress (updates : string)
| Done (payload : content).

Definition is_task_complete (ev : event) : bool :=
  match ev with
  | InProgress _ => false
  | Done _ => true
  end.

Definition started : event := InProgress "正在处理报销合规性检查...".

(** The part of [stream] after [data] is known. *)
Definition finish (today : string) (data : json) : event :=
  match evaluate today data with
  | Ok (Some r) => Done (Response (json_dumps None (result_to_json r)))
  | Ok None => Done (Text missing_expenses)
  | Raise e => Done (Text (failure e))
  end.

(** Everything [stream] yields, in order, when it is consumed to the end. *)
Definition stream (today : string) (query : json) : list event :=
  started ::
  match query with
  | JStr s =>
      match json_loads s with
      | Raise (JSONDecodeError _) => [Done (Text missing_json)]
      | Raise e => [Done (Text (failure e))]
      | Ok data => [finish today data]
      end
  | _ => [finish today query]
  end.

End Agent.

(** Left-to-right binary64 sum from 0.0, the way [total_amount] grows. *)
Definition float_sum (amounts : list float) : float :=
  fold_left PrimFloat.add amounts 0%float.

(** The amounts of the compliant verdicts, in order. *)
Definition compliant_amounts (vs : list verdict) : list float :=
  map v_amount (List.filter v_is_compliant vs).

(** [split_of expenses compliant non_compliant]: every expense appears, as
    its annotated copy, in exactly one of the two lists, and both lists
    keep the order of [expenses]. *)
Inductive split_of : list json -> list json -> list json -> Prop :=
| split_nil : split_of [] [] []
| split_compliant fields rest c n :
    split_of rest c n ->
    split_of (JDict fields :: rest)
             (JDict (dict_set fields "合规" (JBool true)) :: c) n
| split_non_compliant fields reasons rest c n :
    split_of rest c n ->
    split_of (JDict fields :: rest) c
             (JDict (dict_set (dict_set fields "合规" (JBool false))
                              "原因" (JList (map JStr reasons))) :: n).

(** A runtime for closed examples: it converts no string to a float and
    prints every float as "<float>".  The examples that name it use
    numeric amounts only. *)
Definition no_float_of_str : string -> option float := fun _ => None.
Definition opaque_str_float : float -> string := fun _ => "<float>".

(** An expense dictionary that carries its own date. *)
Definition carries_date (item : json) : bool :=
  match item with
  | JDict fields => dict_mem fields "日期"
  | _ => true
  end.

(** What the loop body needs from an expense dictionary to finish: an
    amount [float] accepts (an absent one counts), and a category and a
    date that can be dictionary keys. *)
Definition acceptable (float_of_str : string -> option float) (today : string)
    (item : json) : Prop :=
  exists fields,
    item = JDict fields
    /\ (exists a, item_amount float_of_str fields = Ok a)
    /\ hashable (item_category fields) = true
    /\ hashable (item_date today fields) = true.

(** The class of [e] is [json.JSONDecodeError]. *)
Definition is_decode_error (e : exn) : bool :=
  match e with
  | JSONDecodeError _ => true
  | _ => false
  end.

#[export] Instance result_fmap : FMap result := fun A B f m =>
  match m with
  | Ok a => Ok (f a)
  | Raise e => Raise e
  end.

(** [item] is a meal expense dated [d] (a date it carries, or the
    evaluation date when it carries none). *)
Definition meal_on (today d : string) (item : json) : bool :=
  match item with
  | JDict fields =>
      key_eqb (item_category fields) (JStr meals)
      && key_eqb (item_date today fields) (JStr d)
  | _ => false
  end.

(** How many meal expenses dated [d] a list of items holds. *)
Definition meals_on (today d : string) (items : list json) : Z :=
  Z.of_nat (length (List.filter (meal_on today d) items)).

(** Sample data for closed examples. *)
Definition expense_fields (category : string) (amount : Z) (date : string)
    (has_invoice : bool) : list (string * json) :=
  [("类别", JStr category); ("金额", JInt amount);
   ("日期", JStr date); ("是否有发票", JBool has_invoice)].

Definition expense (category : string) (amount : Z) (date : string)
    (has_invoice : bool) : json :=
  JDict (expense_fields category amount date has_invoice).

Definition undated (category : string) (amount : Z) (has_invoice : bool) : json :=
  JDict [("类别", JStr category); ("金额", JInt amount);
         ("是否有发票", JBool has_invoice)].

Definition transport_items : list json :=
  [expense "交通费" 250 "2025-06-01" true;
   expense "交通费" 350 "2025-06-01" true].

Definition transport_batch : json := JList transport_items.

(** Three dated meals and one meal without a date. *)
Definition undated_meals_batch : json :=
  JList [expense "餐饮费" 30 "2025-06-01" true;
         expense "餐饮费" 40 "2025-06-01" true;
         expense "餐饮费" 50 "2025-06-01" true;
         undated "餐饮费" 60 true].

(** A good item followed by one whose amount is [null], and one whose
    amount is the text "abc". *)
Definition null_amount_batch : json :=
  JList [expense "交通费" 250 "2025-06-01" true;
         JDict [("类别", JStr "交通费"); ("金额", JNull); ("是否有发票", JBool true)]].

Definition text_amount_batch : json :=
  JList [JDict [("类别", JStr "交通费"); ("金额", JStr "abc");
                ("是否有发票", JBool true)]].

Definition empty_result : batch_result := mk_result [] [] 0 0 0 0.

(** [out] is the copy of one of [items] marked compliant: its "合规" is
    [True] and every other key reads as in the item. *)
Definition compliant_copy (items : list json) (out : json) : Prop :=
  exists fields out_fields,
    JDict fields ∈ items /\ out = JDict out_fields
    /\ dict_get out_fields "合规" = Some (JBool true)
    /\ (forall k, k <> "合规" -> dict_get out_fields k = dict_get fields k).

(** [out] is the copy of one of [items] marked non-compliant: its "合规"
    is [False], its "原因" is a non-empty list of strings, and every other
    key reads as in the item. *)
Definition non_compliant_copy (items : list json) (out : json) : Prop :=
  exists fields out_fields reasons,
    JDict fields ∈ items /\ out = JDict out_fields
    /\ dict_get out_fields "合规" = Some (JBool false)
    /\ dict_get out_fields "原因" = Some (JList (map JStr reasons))
    /\ reasons <> []
    /\ (forall k, k <> "合规" -> k <> "原因" ->
                  dict_get out_fields k = dict_get fields k).

End Finance.

(** ** The taxi agent's form and event plumbing *)

Module TaxiAgent.
Import Finance.

(** The dictionary [create_taxi_request_form] returns, key by key in the
    order of its literal. *)
Definition form_to_json (f : Taxi.form) : json :=
  JDict [("request_id", JStr (Taxi.f_request_id f));
         ("pickup_location", JStr (Taxi.f_pickup_location f));
         ("pickup_time", JStr (Taxi.f_pickup_time f));
         ("date", JStr (Taxi.f_date f));
         ("amount", JStr (Taxi.f_amount f))].

(** The two attributes of [tool_context.actions] that [return_form]
    writes ([None] until written). *)
Record actions := mk_actions {
  skip_summarization : option bool;
  escalate : option bool
}.

Definition property (type description title : string) (format : option string) : json :=
  JDict ([("type", JStr type)]
         ++ match format with
            | Some f => [("format", JStr f)]
            | None => []
            end
         ++ [("description", JStr description); ("title", JStr title)]).

Definition form_properties : json :=
  JDict [("pickup_location", property "string" "上车地点" "上车地点" None);
         ("pickup_time",
          property "string" "上车时间（24小时制，如 21:30）" "上车时间" None);
         ("date", property "string" "乘车日期" "日期" (Some "date"));
         ("amount", property "string" "打车费金额" "金额" (Some "number"));
         ("request_id", property "string" "请求ID" "请求ID" None)].

(** [list(form_request.keys())]: only a dictionary has [keys]. *)
Definition keys (form_request : json) : result (list string) :=
  match form_request with
  | JDict fields => Ok (map fst fields)
  | _ => Raise (AttributeError form_request)
  end.

Definition form_dict (required : list string) (form_request : json)
    (instructions : option string) : json :=
  JDict [("type", JStr "form");
         ("form", JDict [("type", JStr "object");
                         ("properties", form_properties);
                         ("required", JList (map JStr required))]);
         ("form_data", form_request);
         ("instructions", match instructions with
                          | Some text => JStr text
                          | None => JNull
                          end)].

Section ReturnForm.

(** [json.loads], and [json.dumps] with its default arguments. *)
Variable json_loads : string -> result json.
Variable json_dumps_default : json -> string.

(** [return_form]: the returned pair is [tool_context.actions] after the
    call and what the call returns or raises. *)
Definition return_form (form_request : json) (tool_context : actions)
    (instructions : option string) : actions * result string :=
  match (match form_request with
         | JStr s => json_loads s
         | _ => Ok form_request
         end) with
  | Raise e => (tool_context, Raise e)
  | Ok form_request =>
      let tool_context := mk_actions (Some true) (escalate tool_context) in
      let tool_context := mk_actions (skip_summarization tool_context) (Some true) in
      match keys form_request with
      | Raise e => (tool_context, Raise e)
      | Ok required =>
          (tool_context,
           Ok (json_dumps_default (form_dict required form_request instructions)))
      end
  end.

End ReturnForm.

(** *** [TaxiReimbursementAgent.stream]

    The events come from the runner; of each, [stream] reads
    [is_final_response()] and the parts of its content, and of each part
    its [text] and its [function_response] (kept as what [model_dump()]
    gives).  [None] for the parts stands for a missing content or missing
    parts. *)

Record part := mk_part {
  text : option string;
  function_response : option json
}.

Record run_event := mk_run_event {
  is_final_response : bool;
  parts : option (list part)
}.

(** Truthiness of [p.text] and of [p.function_response]. *)
Definition has_text (p : part) : bool :=
  match text p with
  | Some (String _ _) => true
  | _ => false
  end.

Definition has_function_response (p : part) : bool :=
  match function_response p with
  | Some _ => true
  | None => false
  end.

(** ["\n".join(texts)]. *)
Fixpoint join_lines (texts : list string) : string :=
  match texts with
  | [] => ""
  | [t] => t
  | t :: rest => t +:+ String "010" (join_lines rest)
  end.

(** [[p.text for p in parts if p.text]]. *)
Fixpoint texts_of (ps : list part) : list string :=
  match ps with
  | [] => []
  | p :: rest =>
      match text p with
      | Some (String c s) => String c s :: texts_of rest
      | _ => texts_of rest
      end
  end.

Inductive content :=
| Text (response : string)
| Dump (response : json).

Inductive event :=
| InProgress (updates : string)
| Done (payload : content).

Definition is_task_complete (ev : event) : bool :=
  match ev with
  | InProgress _ => false
  | Done _ => true
  end.

(** The [response] of a final event. *)
Definition response_of (ev : run_event) : result content :=
  match parts ev with
  | Some (p :: rest) =>
      if has_text p then Ok (Text (join_lines (texts_of (p :: rest))))
      else if existsb has_function_response (p :: rest) then
        (* next(p.function_response.model_dump() for p in parts): the first part *)
        match function_response p with
        | Some dump => Ok (Dump dump)
        | None => Raise (AttributeError JNull)
        end
      else Ok (Text "")
  | _ => Ok (Text "")
  end.

(** What [stream] yields for a run of runner events, and the exception
    that ends it early, if any. *)
Fixpoint stream (events : list run_event) : list event * option exn :=
  match events with
  | [] => ([], None)
  | ev :: rest =>
      if is_final_response ev then
        match response_of ev with
        | Ok response =>
            let '(out, e) := stream rest in (Done response :: out, e)
        | Raise e => ([], Some e)
        end
      else
        let '(out, e) := stream rest in
        (InProgress "正在处理打车费报销请求..." :: out, e)
  end.

End TaxiAgent.

(** * Properties *)

(** ** Substring test *)

Module PyStrFacts.
Import PyStr.

Lemma prefix_app (p s : string) :
  String.prefix p s = true <-> exists post, s = p +:+ post.
Proof.
  revert s. induction p as [|a p IH]; intros s.
  - split; [intros _; exists s; reflexivity | intros _; destruct s; reflexivity].
  - destruct s as [|b s]; simpl.
    + split; [discriminate | intros [post H]; discriminate].
    + destruct (Ascii.ascii_dec a b) as [->|Hne].
      * rewrite IH. split; intros [post H]; exists post.
        -- now rewrite H.
        -- now inversion H.
      * split; [discriminate | intros [post H]; inversion H; congruence].
Qed.

Lemma contains_unfold (needle haystack : string) :
  contains needle haystack =
  if String.prefix needle haystack then true
  else match haystack with
       | EmptyString => false
       | String _ rest => contains needle rest
       end.
Proof. destruct haystack; reflexivity. Qed.

(** [contains] is the substring relation. *)
Lemma contains_spec (needle haystack : string) :
  contains needle haystack = true <->
  exists pre post, haystack = pre +:+ needle +:+ post.
Proof.
  induction haystack as [|c h IH]; rewrite contains_unfold.
  - destruct (String.prefix needle "") eqn:Hp.
    + apply prefix_app in Hp as [post Hp]. split; [|reflexivity].
      intros _. exists "", post. exact Hp.
    + split; [discriminate|]. intros ([|? pre] & post & H); [|discriminate].
      simpl in H. assert (String.prefix needle "" = true) as Hq
        by (apply prefix_app; eauto). congruence.
  - destruct (String.prefix needle (String c h)) eqn:Hp.
    + apply prefix_app in Hp as [post Hp]. split; [|reflexivity].
      intros _. exists "", post. exact Hp.
    + rewrite IH. split.
      * intros (pre & post & ->). exists (String c pre), post. reflexivity.
      * intros ([|c' pre] & post & H).
        -- simpl in H. assert (String.prefix needle (String c h) = true) as Hq
             by (apply prefix_app; eauto). congruence.
        -- inversion H; subst. eauto.
Qed.

End PyStrFacts.

(** ** The taxi validators *)

Module TaxiFacts.
Import PyStr PyStrFacts Taxi.

Local Open Scope Z_scope.

(** The first loop returns [True] exactly when some listed location
    occurs in the input, and otherwise falls through. *)
Lemma scan_valid_locations_spec (vs : list string) (location : string) :
  (scan_valid_locations vs location = Some true /\
   exists v, v ∈ vs /\ contains v location = true) \/
  (scan_valid_locations vs location = None /\
   forall v, v ∈ vs -> contains v location = false).
Proof.
  induction vs as [|v vs IH]; simpl.
  - right. split; [reflexivity|]. intros v Hv. inversion Hv.
  - destruct (contains v location) eqn:Hc.
    + left. split; [reflexivity|]. exists v. split; [left|exact Hc].
    + destruct IH as [[-> (w & Hw & Hcw)]|[-> Hnone]].
      * left. split; [reflexivity|]. exists w. split; [now right|exact Hcw].
      * right. split; [reflexivity|]. intros w Hw.
        apply elem_of_cons in Hw as [->|Hw]; auto.
Qed.

(** The second loop can only reject. *)
Lemma scan_invalid_keywords_rejects (ks : list string) (location : string) :
  scan_invalid_keywords ks location <> Some true.
Proof.
  induction ks as [|k ks IH]; simpl; [discriminate|].
  destruct (contains k location && negb (contains primary_building location));
    [discriminate|exact IH].
Qed.

Lemma scan_invalid_keywords_hit (ks : list string) (location : string) :
  (exists k, k ∈ ks /\ contains k location = true) ->
  contains primary_building location = false ->
  scan_invalid_keywords ks location = Some false.
Proof.
  intros (k & Hk & Hc) Hp. induction ks as [|k' ks IH]; [inversion Hk|].
  simpl. rewrite Hp, andb_true_r.
  destruct (contains k' location) eqn:Hc'; [reflexivity|].
  apply elem_of_cons in Hk as [->|Hk]; [congruence|auto].
Qed.

Lemma is_valid_pickup_location_true (location : string) :
  is_valid_pickup_location location = true <->
  exists v, v ∈ VALID_PICKUP_LOCATIONS /\ contains v location = true.
Proof.
  unfold is_valid_pickup_location.
  destruct (scan_valid_locations_spec VALID_PICKUP_LOCATIONS location)
    as [[-> Hex]|[-> Hnone]].
  - split; [intros _; exact Hex|reflexivity].
  - split.
    + pose proof (scan_invalid_keywords_rejects INVALID_LOCATION_KEYWORDS location).
      destruct (scan_invalid_keywords INVALID_LOCATION_KEYWORDS location) as [[]|];
        congruence.
    + intros (v & Hv & Hc). rewrite (Hnone v Hv) in Hc. discriminate.
Qed.

(** C5. Location legality: a pickup location is approved exactly when it
    contains an entry of the allow-list.  Hence a location that contains
    no allow-list entry is rejected, both when it names a denied district
    without the primary building (the second loop returns [False]) and
    when it matches neither list (the final [return False]).  The listed
    examples evaluate as the specification says. *)
Theorem C5_location_legality :
  (forall location,
     is_valid_pickup_location location = true <->
     exists v pre post, v ∈ VALID_PICKUP_LOCATIONS /\ location = pre +:+ v +:+ post)
  /\ (forall location,
        (forall v, v ∈ VALID_PICKUP_LOCATIONS -> contains v location = false) ->
        (exists k, k ∈ INVALID_LOCATION_KEYWORDS /\ contains k location = true) ->
        contains primary_building location = false ->
        scan_invalid_keywords INVALID_LOCATION_KEYWORDS location = Some false
        /\ is_valid_pickup_location location = false)
  /\ (forall location,
        (forall v, v ∈ VALID_PICKUP_LOCATIONS -> contains v location = false) ->
        is_valid_pickup_location location = false)
  /\ is_valid_pickup_location "中关村资本大厦" = true
  /\ is_valid_pickup_location "中关村资本大厦北门" = true
  /\ is_valid_pickup_location "中关村" = false
  /\ is_valid_pickup_location "望京" = false
  /\ is_valid_pickup_location "首都机场T3航站楼" = false.
Proof.
  assert (Hotherwise : forall location,
    (forall v, v ∈ VALID_PICKUP_LOCATIONS -> contains v location = false) ->
    is_valid_pickup_location location = false).
  { intros location Hnone.
    destruct (is_valid_pickup_location location) eqn:Hv; [|reflexivity].
    apply is_valid_pickup_location_true in Hv as (v & Hv & Hc).
    rewrite (Hnone v Hv) in Hc. discriminate. }
  split; [|split; [|split]].
  - intros location. rewrite is_valid_pickup_location_true. split.
    + intros (v & Hv & Hc). apply contains_spec in Hc as (pre & post & Hc). eauto.
    + intros (v & pre & post & Hv & Hc). exists v. split; [exact Hv|].
      apply contains_spec. eauto.
  - intros location Hnone Hdeny Hprimary. split; [|auto].
    now apply scan_invalid_keywords_hit.
  - exact Hotherwise.
  - repeat split; vm_compute; reflexivity.
Qed.

(** A denied district without the primary building. *)
Lemma C5_location_legality_witness :
  (forall v, v ∈ VALID_PICKUP_LOCATIONS -> contains v "望京SOHO" = false)
  /\ (exists k, k ∈ INVALID_LOCATION_KEYWORDS /\ contains k "望京SOHO" = true)
  /\ contains primary_building "望京SOHO" = false
  /\ scan_invalid_keywords INVALID_LOCATION_KEYWORDS "望京SOHO" = Some false
  /\ is_valid_pickup_location "望京SOHO" = false.
Proof.
  assert (H1 : forall v, v ∈ VALID_PICKUP_LOCATIONS -> contains v "望京SOHO" = false).
  { intros v Hv. unfold VALID_PICKUP_LOCATIONS in Hv.
    repeat (apply elem_of_cons in Hv as [->|Hv]; [reflexivity|]).
    inversion Hv. }
  assert (H2 : exists k, k ∈ INVALID_LOCATION_KEYWORDS /\ contains k "望京SOHO" = true).
  { exists "望京". split; [|reflexivity].
    unfold INVALID_LOCATION_KEYWORDS. apply elem_of_cons. right.
    apply elem_of_cons. now left. }
  split; [exact H1|]. split; [exact H2|]. split; [reflexivity|].
  exact (proj1 (proj2 C5_location_legality) "望京SOHO" H1 H2 eq_refl).
Defined.

(** *** Pickup time *)

Lemma time_leb_spec (a b : time) : time_leb a b = true <-> time_le a b.
Proof.
  unfold time_leb, time_le.
  repeat match goal with
         | |- context [?x <? ?y] => destruct (Z.ltb_spec x y)
         end;
    rewrite ?Z.leb_le; split; try discriminate; try reflexivity; lia.
Qed.

Section AnyParser.

Variable strptime : string -> string -> strptime_result.

(** Whatever the parser, a pickup time that parses is accepted exactly
    when it lies in the window that wraps around midnight. *)
Lemma window_any_parser (pickup_time : string) (t : time) :
  try_formats strptime formats pickup_time = Found (Some t) ->
  fst (is_valid_pickup_time strptime pickup_time) = true <->
  time_le night_start t \/ time_le t morning_end.
Proof.
  intros Hparse. unfold is_valid_pickup_time. rewrite Hparse.
  unfold in_window. rewrite <- !time_leb_spec.
  destruct (time_leb night_start t), (time_leb t morning_end); simpl;
    intuition discriminate.
Qed.

(** An input that no format parses is rejected with the message that
    names the format problem. *)
Lemma unparseable_rejected (pickup_time : string) :
  try_formats strptime formats pickup_time = Found None ->
  is_valid_pickup_time strptime pickup_time
  = (false, "无法识别的时间格式，请使用 HH:MM 格式").
Proof. intros H. unfold is_valid_pickup_time. now rewrite H. Qed.

End AnyParser.

Lemma digit_range (s rest : string) (x : Z) :
  digit s = Some (x, rest) -> 0 <= x <= 9.
Proof.
  unfold digit. destruct (code_point s) as [[cp s']|]; [|discriminate].
  unfold decimal.
  destruct (List.find _ decimal_zeros) as [zero|] eqn:Hfind; [|discriminate].
  intros [= <- _]. apply find_some in Hfind as [_ H].
  apply andb_true_iff in H as [H1 H2]. lia.
Qed.

Lemma ascii_digit_range (lo hi : Z) (s rest : string) (x : Z) :
  ascii_digit lo hi s = Some (x, rest) -> lo <= x <= hi.
Proof.
  unfold ascii_digit. destruct s as [|a s']; [discriminate|].
  cbv zeta. destruct (_ && _) eqn:H; [|discriminate].
  intros [= <- _]. apply andb_true_iff in H as [H1 H2]. lia.
Qed.

Lemma or_else_some {A} (x y : option A) (r : A) :
  or_else x y = Some r -> x = Some r \/ y = Some r.
Proof. destruct x; simpl; auto. Qed.

Lemma two_digits_some {A} first second s (k : Z -> string -> option A) (r : A) :
  two_digits first second s k = Some r ->
  exists x y s' rest,
    first s = Some (x, s') /\ second s' = Some (y, rest)
    /\ k (10 * x + y) rest = Some r.
Proof.
  unfold two_digits. destruct (first s) as [[x s']|]; [|discriminate].
  destruct (second s') as [[y rest]|] eqn:Hy; [|discriminate].
  intros H. exists x, y, s', rest. auto.
Qed.

Lemma one_digit_some {A} s (k : Z -> string -> option A) (r : A) :
  one_digit s k = Some r ->
  exists x rest, 0 <= x <= 9 /\ k x rest = Some r.
Proof.
  unfold one_digit. destruct (digit s) as [[x rest]|] eqn:Ha; [|discriminate].
  intros H. apply digit_range in Ha. exists x, rest. auto.
Qed.

Lemma regex_match_range (ds : list directive) :
  forall s h m h' m' rest,
    regex_match ds s h m = Some (h', m', rest) ->
    0 <= h <= 23 -> 0 <= m <= 59 -> 0 <= h' <= 23 /\ 0 <= m' <= 59.
Proof.
  induction ds as [|d ds IH]; intros s h m h' m' rest; simpl.
  - intros [= <- <- <-]. auto.
  - destruct d as [| |c]; intros H Hh Hm.
    + (* %H: 2[0-3], then [0-1]\d, then \d *)
      apply or_else_some in H as [H|H]; [|apply or_else_some in H as [H|H]].
      * apply two_digits_some in H as (x & y & s' & r & Hx & Hy & H).
        apply ascii_digit_range in Hx, Hy.
        eapply IH; [exact H|lia|lia].
      * apply two_digits_some in H as (x & y & s' & r & Hx & Hy & H).
        apply ascii_digit_range in Hx. apply digit_range in Hy.
        eapply IH; [exact H|lia|lia].
      * apply one_digit_some in H as (x & r & Hx & H).
        eapply IH; [exact H|lia|lia].
    + (* %M: [0-5]\d, then \d *)
      apply or_else_some in H as [H|H].
      * apply two_digits_some in H as (x & y & s' & r & Hx & Hy & H).
        apply ascii_digit_range in Hx. apply digit_range in Hy.
        eapply IH; [exact H|lia|lia].
      * apply one_digit_some in H as (x & r & Hx & H).
        eapply IH; [exact H|lia|lia].
    + destruct s as [|c' s']; [discriminate|].
      destruct (Ascii.eqb c c'); [|discriminate]. eapply IH; eauto.
Qed.

Lemma strptime_time_whole_minute (s fmt : string) (t : time) :
  strptime_time s fmt = Parsed t -> whole_minute t.
Proof.
  unfold strptime_time.
  destruct (regex_match (directives fmt) s 0 0) as [[[h m] [|? ?]]|] eqn:H;
    try discriminate.
  intros [= <-]. apply regex_match_range in H; [|lia|lia].
  unfold whole_minute; simpl. intuition lia.
Qed.

Lemma try_formats_whole_minute (fmts : list string) (s : string) (t : time) :
  try_formats strptime_time fmts s = Found (Some t) -> whole_minute t.
Proof.
  induction fmts as [|fmt fmts IH]; simpl; [discriminate|].
  destruct (strptime_time s fmt) eqn:H; [|exact IH|discriminate].
  intros [= <-]. eapply strptime_time_whole_minute, H.
Qed.

Lemma parsed_pickup_time_found (s : string) (t : time) :
  parsed_pickup_time s = Some t ->
  try_formats strptime_time formats s = Found (Some t).
Proof.
  unfold parsed_pickup_time.
  destruct (try_formats strptime_time formats s); [|discriminate].
  now intros ->.
Qed.

(** C4. Time legality: every pickup time that parses (by the first
    matching format) is accepted exactly when it is at or after 21:00 or
    at or before 05:00, both ends included; stated for any parser in terms
    of the order on times, and for the modelled parser in minutes since
    midnight.  22:00, 04:30 and 05:00 are approved; 05:01 and 20:59 are
    rejected. *)
Theorem C4_pickup_time_window :
  (forall strptime pickup_time t,
     try_formats strptime formats pickup_time = Found (Some t) ->
     fst (is_valid_pickup_time strptime pickup_time) = true <->
     time_le night_start t \/ time_le t morning_end)
  /\ (forall pickup_time t,
        parsed_pickup_time pickup_time = Some t ->
        fst (is_valid_pickup_time strptime_time pickup_time) = true <->
        21 * 60 <= 60 * hour t + minute t \/ 60 * hour t + minute t <= 5 * 60)
  /\ is_valid_pickup_time strptime_time "22:00" = (true, "")
  /\ is_valid_pickup_time strptime_time "04:30" = (true, "")
  /\ is_valid_pickup_time strptime_time "05:00" = (true, "")
  /\ fst (is_valid_pickup_time strptime_time "05:01") = false
  /\ fst (is_valid_pickup_time strptime_time "20:59") = false.
Proof.
  split; [exact window_any_parser|]. split.
  - intros pickup_time t Hparse. apply parsed_pickup_time_found in Hparse.
    rewrite (window_any_parser _ _ _ Hparse).
    apply try_formats_whole_minute in Hparse as (Hh & Hm & Hs & Hus).
    unfold time_le, night_start, morning_end; simpl. lia.
  - repeat split; vm_compute; reflexivity.
Qed.

(** The window at a concrete pickup time. *)
Lemma C4_pickup_time_window_witness :
  parsed_pickup_time "23:30" = Some (mk_time 23 30 0 0) /\
  (fst (is_valid_pickup_time strptime_time "23:30") = true <->
   21 * 60 <= 60 * 23 + 30 \/ 60 * 23 + 30 <= 5 * 60).
Proof.
  split; [reflexivity|].
  exact (proj1 (proj2 C4_pickup_time_window) "23:30" (mk_time 23 30 0 0) eq_refl).
Defined.

(** *** The ledger and [reimburse_taxi] *)

Lemma create_adds (n : Z) (ids : gset string) a b c d :
  snd (create_taxi_request_form n ids a b c d) = {[request_id_of n]} ∪ ids.
Proof. reflexivity. Qed.

Lemma fold_create_spec (draws : list Z) :
  forall (ids : gset string) (request_id : string),
    request_id ∈ fold_left
      (fun ids n => snd (create_taxi_request_form n ids None None None None))
      draws ids
    <-> request_id ∈ ids \/ exists n, n ∈ draws /\ request_id = request_id_of n.
Proof.
  induction draws as [|n draws IH]; intros ids request_id; simpl.
  - split; [auto|]. intros [H|(n & Hn & _)]; [exact H|inversion Hn].
  - rewrite IH, elem_of_union, elem_of_singleton. split.
    + intros [[->|H]|(m & Hm & ->)]; [right|left|right]; auto.
      * exists n. split; [apply elem_of_cons; auto|reflexivity].
      * exists m. split; [apply elem_of_cons; auto|reflexivity].
    + intros [H|(m & Hm & ->)]; [auto|].
      apply elem_of_cons in Hm as [->|Hm]; eauto.
Qed.

(** The ledger holds exactly the ids handed out so far. *)
Lemma ledger_after_spec (draws : list Z) (request_id : string) :
  request_id ∈ ledger_after draws <->
  exists n, n ∈ draws /\ request_id = request_id_of n.
Proof.
  unfold ledger_after. rewrite fold_create_spec. split; [|auto].
  intros [H|H]; [|exact H]. now apply not_elem_of_empty in H.
Qed.

Section Reimburse.

Variable strptime : string -> string -> strptime_result.
Variable request_ids : gset string.
Variables request_id pickup_location pickup_time : string.

Lemma reimburse_unknown_id :
  request_id ∉ request_ids ->
  reimburse_taxi strptime request_ids request_id pickup_location pickup_time
  = rejected request_id "无效的请求ID".
Proof. intros Hid. unfold reimburse_taxi. now rewrite bool_decide_eq_true_2. Qed.

Lemma reimburse_bad_location :
  request_id ∈ request_ids ->
  is_valid_pickup_location pickup_location = false ->
  reimburse_taxi strptime request_ids request_id pickup_location pickup_time
  = rejected request_id (location_reason pickup_location).
Proof.
  intros Hid Hloc. unfold reimburse_taxi.
  rewrite bool_decide_eq_false_2 by auto. now rewrite Hloc.
Qed.

Lemma reimburse_bad_time :
  request_id ∈ request_ids ->
  is_valid_pickup_location pickup_location = true ->
  fst (is_valid_pickup_time strptime pickup_time) = false ->
  reimburse_taxi strptime request_ids request_id pickup_location pickup_time
  = rejected request_id (snd (is_valid_pickup_time strptime pickup_time)).
Proof.
  intros Hid Hloc Htime. unfold reimburse_taxi.
  rewrite bool_decide_eq_false_2 by auto. rewrite Hloc. simpl.
  destruct (is_valid_pickup_time strptime pickup_time) as [valid_time time_error].
  simpl in Htime. now subst.
Qed.

Lemma reimburse_approved :
  request_id ∈ request_ids ->
  is_valid_pickup_location pickup_location = true ->
  fst (is_valid_pickup_time strptime pickup_time) = true ->
  reimburse_taxi strptime request_ids request_id pickup_location pickup_time
  = approved request_id.
Proof.
  intros Hid Hloc Htime. unfold reimburse_taxi.
  rewrite bool_decide_eq_false_2 by auto. rewrite Hloc. simpl.
  destruct (is_valid_pickup_time strptime pickup_time) as [valid_time time_error].
  simpl in Htime. now subst.
Qed.

End Reimburse.

(** The text that comes with a rejected time is one of the three the
    validator writes. *)
Lemma time_error_texts (strptime : string -> string -> strptime_result)
    (pickup_time : string) :
  fst (is_valid_pickup_time strptime pickup_time) = false ->
  snd (is_valid_pickup_time strptime pickup_time)
  = "无法识别的时间格式，请使用 HH:MM 格式"
  \/ snd (is_valid_pickup_time strptime pickup_time)
     = "上车时间 " +:+ pickup_time +:+ " 不在允许的时间范围内（晚上9点到次日凌晨5点）"
  \/ exists text,
       snd (is_valid_pickup_time strptime pickup_time)
       = "时间格式错误: " +:+ text +:+ "，请使用 HH:MM 格式".
Proof.
  unfold is_valid_pickup_time.
  destruct (try_formats strptime formats pickup_time) as [[t|]|text].
  - destruct (in_window t); [discriminate|]. intros _. right. left. reflexivity.
  - intros _. left. reflexivity.
  - intros _. right. right. exists text. reflexivity.
Qed.

(** C6. [reimburse_taxi] checks the request id, then the location, then
    the time, and returns at the first failure with status "拒绝" and that
    check's reason alone: an unknown id gets the reason "无效的请求ID"
    whatever the location, the time and the time parser are; a known id
    with a bad location gets the location text, which quotes the location,
    whatever the time is; a known id with a good location and a bad time
    gets the text the time validator returned, one of its three; otherwise
    the decision has status "批准" and no reason.  Every decision echoes the
    request id.  An id that no form creation handed out is unknown to the
    ledger and so rejected in the first way. *)
Theorem C6_reimburse_short_circuit :
  forall (strptime : string -> string -> strptime_result)
         (request_ids : gset string)
         (request_id pickup_location pickup_time : string),
    (request_id ∉ request_ids ->
       reimburse_taxi strptime request_ids request_id pickup_location pickup_time
       = mk_decision request_id "拒绝" (Some "无效的请求ID"))
    /\ (request_id ∈ request_ids ->
        is_valid_pickup_location pickup_location = false ->
        reimburse_taxi strptime request_ids request_id pickup_location pickup_time
        = mk_decision request_id "拒绝"
            (Some ("上车地点'" +:+ pickup_location
                   +:+ "'不符合公司规定，必须是中关村资本大厦附近")))
    /\ (request_id ∈ request_ids ->
        is_valid_pickup_location pickup_location = true ->
        fst (is_valid_pickup_time strptime pickup_time) = false ->
        reimburse_taxi strptime request_ids request_id pickup_location pickup_time
        = mk_decision request_id "拒绝"
            (Some (snd (is_valid_pickup_time strptime pickup_time)))
        /\ (snd (is_valid_pickup_time strptime pickup_time)
            = "无法识别的时间格式，请使用 HH:MM 格式"
            \/ snd (is_valid_pickup_time strptime pickup_time)
               = "上车时间 " +:+ pickup_time
                 +:+ " 不在允许的时间范围内（晚上9点到次日凌晨5点）"
            \/ exists text,
                 snd (is_valid_pickup_time strptime pickup_time)
                 = "时间格式错误: " +:+ text +:+ "，请使用 HH:MM 格式"))
    /\ (request_id ∈ request_ids ->
        is_valid_pickup_location pickup_location = true ->
        fst (is_valid_pickup_time strptime pickup_time) = true ->
        reimburse_taxi strptime request_ids request_id pickup_location pickup_time
        = mk_decision request_id "批准" None)
    /\ (forall draws : list Z,
          (forall n, n ∈ draws -> request_id <> request_id_of n) ->
          reimburse_taxi strptime (ledger_after draws) request_id
            pickup_location pickup_time
          = mk_decision request_id "拒绝" (Some "无效的请求ID")).
Proof.
  intros strptime request_ids request_id pickup_location pickup_time.
  split; [exact (reimburse_unknown_id strptime request_ids request_id
                   pickup_location pickup_time)|].
  split; [exact (reimburse_bad_location strptime request_ids request_id
                   pickup_location pickup_time)|].
  split.
  { intros Hid Hloc Htime. split.
    - exact (reimburse_bad_time strptime request_ids request_id
               pickup_location pickup_time Hid Hloc Htime).
    - exact (time_error_texts strptime pickup_time Htime). }
  split; [exact (reimburse_approved strptime request_ids request_id
                   pickup_location pickup_time)|].
  intros draws Hfresh.
  apply (reimburse_unknown_id strptime (ledger_after draws) request_id
           pickup_location pickup_time).
  rewrite ledger_after_spec.
  intros (n & Hn & Heq). exact (Hfresh n Hn Heq).
Qed.

(** One created id in the ledger.  An id that was never created is turned
    down for the id, although location and time are good; the created id
    is turned down for the location "望京" although 12:00 is a bad time
    too, then for the time alone, and approved at 23:30. *)
Lemma C6_reimburse_short_circuit_witness :
  let ledger := ledger_after [1234567] in
  let building := "中关村资本大厦" in
  (("request_id_0000000" ∉ ledger)
   /\ reimburse_taxi strptime_time ledger "request_id_0000000" building "23:30"
      = mk_decision "request_id_0000000" "拒绝" (Some "无效的请求ID"))
  /\ (("request_id_1234567" ∈ ledger /\ is_valid_pickup_location "望京" = false)
      /\ reimburse_taxi strptime_time ledger "request_id_1234567" "望京" "12:00"
         = mk_decision "request_id_1234567" "拒绝"
             (Some "上车地点'望京'不符合公司规定，必须是中关村资本大厦附近"))
  /\ ((is_valid_pickup_location building = true
       /\ fst (is_valid_pickup_time strptime_time "12:00") = false)
      /\ reimburse_taxi strptime_time ledger "request_id_1234567" building "12:00"
         = mk_decision "request_id_1234567" "拒绝"
             (Some "上车时间 12:00 不在允许的时间范围内（晚上9点到次日凌晨5点）"))
  /\ (fst (is_valid_pickup_time strptime_time "23:30") = true
      /\ reimburse_taxi strptime_time ledger "request_id_1234567" building "23:30"
         = mk_decision "request_id_1234567" "批准" None).
Proof.
  intros ledger building.
  assert (Hnew : "request_id_0000000" ∉ ledger).
  { unfold ledger. rewrite ledger_after_spec. intros (n & Hn & Heq).
    apply list_elem_of_singleton in Hn as ->. vm_compute in Heq. discriminate. }
  assert (Hold : "request_id_1234567" ∈ ledger).
  { unfold ledger. apply ledger_after_spec. exists 1234567.
    split; [apply list_elem_of_singleton; reflexivity|reflexivity]. }
  split; [split; [exact Hnew|]|split; [split; [split; [exact Hold|reflexivity]|]|
          split; [split; [split; reflexivity|]|split; [reflexivity|]]]].
  - exact (proj1 (C6_reimburse_short_circuit strptime_time ledger
                    "request_id_0000000" building "23:30") Hnew).
  - exact (proj1 (proj2 (C6_reimburse_short_circuit strptime_time ledger
                           "request_id_1234567" "望京" "12:00")) Hold eq_refl).
  - exact (proj1 (proj1 (proj2 (proj2 (C6_reimburse_short_circuit strptime_time
                    ledger "request_id_1234567" building "12:00")))
                   Hold eq_refl eq_refl)).
  - exact (proj1 (proj2 (proj2 (proj2 (C6_reimburse_short_circuit strptime_time
                    ledger "request_id_1234567" building "23:30"))))
             Hold eq_refl eq_refl).
Defined.

(** The scenario of the specification: a created id, the office building,
    23:30. *)
Example reimburse_created_request :
  reimburse_taxi strptime_time (ledger_after [1234567]) (request_id_of 1234567)
    "中关村资本大厦" "23:30"
  = approved "request_id_1234567".
Proof.
  apply reimburse_approved.
  - apply ledger_after_spec. exists 1234567. split; [left|reflexivity].
  - reflexivity.
  - reflexivity.
Qed.

(** *** Form creation *)

Lemma request_id_of_inj (n1 n2 : Z) :
  request_id_of n1 = request_id_of n2 -> n1 = n2.
Proof.
  unfold request_id_of. simpl. intros H. injection H as H.
  exact (pretty_Z_inj _ _ H).
Qed.

(** C8 (as the code has it). A creation returns the id "request_id_"
    followed by the decimal digits of the value that
    [random.randint(1000000, 9999999)] gave this call; the id is a member
    of the ledger at once and stays one after a later creation.  Two
    creations return distinct ids exactly when their random values differ:
    no new id is compared with the ledger. *)
Theorem C8_created_ids :
  forall (n1 n2 : Z) (request_ids : gset string)
         (loc1 time1 date1 amount1 loc2 time2 date2 amount2 : option string),
    let r1 := create_taxi_request_form n1 request_ids loc1 time1 date1 amount1 in
    let r2 := create_taxi_request_form n2 (snd r1) loc2 time2 date2 amount2 in
    f_request_id (fst r1) = request_id_of n1
    /\ f_request_id (fst r1) ∈ snd r1
    /\ f_request_id (fst r2) ∈ snd r2
    /\ f_request_id (fst r1) ∈ snd r2
    /\ (f_request_id (fst r1) <> f_request_id (fst r2) <-> n1 <> n2).
Proof.
  intros. subst r1 r2. simpl. repeat split.
  - set_solver.
  - set_solver.
  - set_solver.
  - intros Hne ->. now apply Hne.
  - intros Hne Heq. apply Hne. now apply request_id_of_inj.
Qed.

(** C8, against the specification's wording: two creations whose random values
    coincide (here both 4242424, a value [randint] can return) hand out
    the same id. *)
Lemma C8_same_draw_same_id :
  let r1 := create_taxi_request_form 4242424 ∅ None None None None in
  let r2 := create_taxi_request_form 4242424 (snd r1) None None None None in
  randint_range 4242424
  /\ f_request_id (fst r1) = "request_id_4242424"
  /\ f_request_id (fst r2) = "request_id_4242424".
Proof. repeat split; vm_compute; congruence. Qed.

End TaxiFacts.

(** ** The compliance evaluator *)

Module FinanceFacts.
Import Finance.

Local Open Scope Z_scope.

Lemma dict_get_set_eq (d : list (string * json)) (k : string) (v : json) :
  dict_get (dict_set d k v) k = Some v.
Proof.
  induction d as [|[k' v'] d IH]; simpl.
  - now rewrite String.eqb_refl.
  - destruct (String.eqb k' k) eqn:E; simpl; now rewrite E.
Qed.

Lemma dict_get_set_ne (d : list (string * json)) (k k' : string) (v : json) :
  k <> k' -> dict_get (dict_set d k v) k' = dict_get d k'.
Proof.
  intros Hne. induction d as [|[k0 v0] d IH]; simpl.
  - destruct (String.eqb_spec k k'); [contradiction|reflexivity].
  - destruct (String.eqb_spec k0 k) as [->|Hk]; simpl.
    + destruct (String.eqb_spec k k'); [contradiction|reflexivity].
    + destruct (String.eqb k0 k'); [reflexivity|exact IH].
Qed.

Section AgentFacts.

Variable float_of_str : string -> option float.
Variable str_float : float -> string.
Variable json_loads : string -> result json.
Variable json_dumps : option Z -> json -> string.
Variable str_exn : exn -> string.

Local Abbreviation invoke := (invoke float_of_str str_float json_loads json_dumps str_exn).
Local Abbreviation stream := (stream float_of_str str_float json_loads json_dumps str_exn).
Local Abbreviation finish := (finish float_of_str str_float json_dumps str_exn).
Local Abbreviation evaluate := (evaluate float_of_str str_float).
Local Abbreviation load_query := (load_query json_loads).
Local Abbreviation failure := (failure str_exn).
Local Abbreviation acceptable := (acceptable float_of_str).
Local Abbreviation judge := (judge float_of_str str_float).
Local Abbreviation check_item := (check_item float_of_str str_float).
Local Abbreviation run_loop := (run_loop float_of_str str_float).
Local Abbreviation verdicts := (verdicts float_of_str str_float).
Local Abbreviation _check_compliance := (_check_compliance float_of_str str_float).
Local Abbreviation item_amount := (item_amount float_of_str).
Local Abbreviation amount_of := (amount_of float_of_str).

(** The loop is the verdicts plus bookkeeping. *)
Lemma run_loop_verdicts (today : string) (expenses : list json) :
  forall st,
    run_loop today st expenses =
    match verdicts today (daily_meals st) expenses with
    | Ok (vs, daily_meals') =>
        Ok (mk_state
              (fold_left PrimFloat.add (compliant_amounts vs) (total_amount st))
              (compliant_expenses st ++ outputs true expenses vs)
              (non_compliant_expenses st ++ outputs false expenses vs)
              daily_meals')
    | Raise e => Raise e
    end.
Proof.
  induction expenses as [|expense rest IH]; intros st.
  - simpl. rewrite !app_nil_r. now destruct st.
  - destruct expense as [| | | | | |fields]; try reflexivity.
    cbn [run_loop verdicts check_item].
    destruct (judge today (daily_meals st) fields) as [[v dm']|e]; [|reflexivity].
    cbn. rewrite IH. unfold record_verdict.
    destruct (v_is_compliant v) eqn:Hv; cbn;
      destruct (verdicts today dm' rest) as [[vs dm'']|e]; cbn; try reflexivity;
      unfold compliant_amounts; cbn; rewrite Hv; cbn; now rewrite <- app_assoc.
Qed.

(** What a successful [judge] did. *)
Lemma judge_ok (today : string) dm (fields : list (string * json)) v dm' :
  judge today dm fields = Ok (v, dm') ->
  exists category r,
    item_amount fields = Ok (v_amount v)
    /\ resolve_category (item_category fields) = Ok category
    /\ lookup_rule category = Ok r
    /\ let basic := basic_checks str_float category r (v_amount v)
                      (item_has_invoice fields) in
       if String.eqb category meals then
         hashable (item_date today fields) = true
         /\ dm' = fst (bump dm (item_date today fields) (v_amount v))
         /\ exists limit, daily_count_limit r = Some limit
            /\ let n := snd (bump dm (item_date today fields) (v_amount v)) in
               v_is_compliant v = fst basic && negb (limit <? n)
               /\ v_reasons v
                  = snd basic ++ (if limit <? n then [daily_limit_reason limit] else [])
       else dm' = dm /\ v_is_compliant v = fst basic /\ v_reasons v = snd basic.
Proof.
  unfold judge. intros H.
  destruct (item_amount fields) as [amount|e] eqn:Ha; [|discriminate]. cbn in H.
  destruct (resolve_category (item_category fields)) as [category|e] eqn:Hc;
    [|discriminate]. cbn in H.
  destruct (lookup_rule category) as [r|e] eqn:Hr; [|discriminate]. cbn in H.
  exists category, r.
  destruct (basic_checks str_float category r amount (item_has_invoice fields))
    as [is_compliant reasons] eqn:Hb.
  destruct (String.eqb category meals) eqn:Hm.
  - destruct (hashable (item_date today fields)) eqn:Hh; [|discriminate].
    cbn in H.
    destruct (bump dm (item_date today fields) amount) as [dm1 n] eqn:Hbump.
    unfold rule_daily_limit in H.
    destruct (daily_count_limit r) as [limit|] eqn:Hl; [|discriminate]. cbn in H.
    destruct (limit <? n) eqn:Hn; injection H as <- <-; cbn;
      rewrite Hb, Hbump; cbn;
      (do 5 (split; [first [reflexivity|assumption]|])); exists limit; rewrite Hn; cbn.
    + rewrite andb_false_r. auto.
    + rewrite andb_true_r, app_nil_r. auto.
  - injection H as <- <-. cbn. rewrite Hb. repeat split; auto.
Qed.

Lemma judge_amount (today : string) dm (fields : list (string * json)) v dm' :
  judge today dm fields = Ok (v, dm') -> item_amount fields = Ok (v_amount v).
Proof. intros H. apply judge_ok in H as (c & r & H & _). exact H. Qed.

(** The annotations do not touch the amount. *)
Lemma amount_of_annotate (fields : list (string * json)) (v : verdict) :
  amount_of (annotate fields v) = item_amount fields.
Proof.
  unfold annotate, amount_of, Finance.item_amount, dict_get_default.
  destruct (v_is_compliant v).
  - now rewrite dict_get_set_ne by discriminate.
  - now rewrite !dict_get_set_ne by discriminate.
Qed.

Lemma outputs_lengths (today : string) (expenses : list json) :
  forall dm vs dm',
    verdicts today dm expenses = Ok (vs, dm') ->
    (length (outputs true expenses vs) + length (outputs false expenses vs)
     = length expenses)%nat.
Proof.
  induction expenses as [|expense rest IH]; intros dm vs dm' H.
  - injection H as <- <-. reflexivity.
  - destruct expense as [| | | | | |fields]; try discriminate.
    cbn in H. destruct (judge today dm fields) as [[v dm1]|e]; [|discriminate].
    cbn in H. destruct (verdicts today dm1 rest) as [[vs1 dm2]|e] eqn:Hrest;
      [|discriminate].
    injection H as <- <-. apply IH in Hrest. cbn.
    destruct (v_is_compliant v); cbn; lia.
Qed.

Lemma outputs_amounts (today : string) (expenses : list json) :
  forall dm vs dm',
    verdicts today dm expenses = Ok (vs, dm') ->
    Forall2 (fun item a => amount_of item = Ok a)
            (outputs true expenses vs) (compliant_amounts vs).
Proof.
  induction expenses as [|expense rest IH]; intros dm vs dm' H.
  - injection H as <- <-. constructor.
  - destruct expense as [| | | | | |fields]; try discriminate.
    cbn in H. destruct (judge today dm fields) as [[v dm1]|e] eqn:Hj; [|discriminate].
    cbn in H. destruct (verdicts today dm1 rest) as [[vs1 dm2]|e] eqn:Hrest;
      [|discriminate].
    injection H as <- <-. apply IH in Hrest. unfold compliant_amounts. cbn.
    destruct (v_is_compliant v) eqn:Hv; cbn; [|exact Hrest].
    constructor; [|exact Hrest].
    rewrite amount_of_annotate. eapply judge_amount, Hj.
Qed.

(** What a successful [_check_compliance] returned, in terms of the
    verdicts. *)
Lemma check_compliance_ok (today : string) (expenses : json) (r : batch_result) :
  _check_compliance today expenses = Ok r ->
  exists items vs dm,
    py_iter expenses = Ok items
    /\ verdicts today [] items = Ok (vs, dm)
    /\ r = mk_result (outputs true items vs) (outputs false items vs)
                     (float_sum (compliant_amounts vs))
                     (Z.of_nat (length items))
                     (Z.of_nat (length (outputs true items vs)))
                     (Z.of_nat (length (outputs false items vs))).
Proof.
  unfold Finance._check_compliance. intros H.
  destruct (py_iter expenses) as [items|e] eqn:Hi; [|discriminate]. cbn in H.
  rewrite run_loop_verdicts in H. cbn in H.
  destruct (verdicts today [] items) as [[vs dm]|e] eqn:Hvs; [|discriminate].
  cbn in H. injection H as <-. exists items, vs, dm. repeat split; first [assumption|reflexivity].
Qed.

(** C10. An empty batch evaluates without error to the result with two
    empty lists, three zero counts and total 0.0; [invoke] on a request
    whose "expenses" is the empty list returns that result serialised. *)
Theorem C10_empty_batch :
  forall today : string,
    _check_compliance today (JList []) = Ok empty_result
    /\ r_compliant empty_result = []
    /\ r_non_compliant empty_result = []
    /\ r_item_count empty_result = 0
    /\ r_compliant_count empty_result = 0
    /\ r_non_compliant_count empty_result = 0
    /\ r_total_amount empty_result = 0%float
    /\ invoke today (JDict [("expenses", JList [])])
       = json_dumps (Some 2) (result_to_json empty_result).
Proof. intros today. repeat split. Qed.

(** *** Missing and invalid fields *)

Lemma missing_amount_is_zero (fields : list (string * json)) :
  dict_get fields "金额" = None -> item_amount fields = Ok 0%float.
Proof.
  intros H. unfold Finance.item_amount, dict_get_default. now rewrite H.
Qed.

Lemma missing_date_is_today (today : string) (fields : list (string * json)) :
  dict_get fields "日期" = None -> item_date today fields = JStr today.
Proof. intros H. unfold item_date, dict_get_default. now rewrite H. Qed.

(** [float] raises only these. *)
Lemma item_amount_raises (fields : list (string * json)) (e : exn) :
  item_amount fields = Raise e ->
  exists v, dict_get fields "金额" = Some v
            /\ (e = ValueError v \/ e = TypeError v \/ e = OverflowError v).
Proof.
  unfold Finance.item_amount, dict_get_default.
  destruct (dict_get fields "金额") as [v|]; [|discriminate].
  intros H. exists v. split; [reflexivity|].
  destruct v as [|b|z|f|s|l|d]; unfold py_float in H.
  - injection H as <-. auto.
  - discriminate.
  - destruct (is_infinity (float_of_int z)); [injection H as <-; auto|discriminate].
  - discriminate.
  - destruct (float_of_str s); [discriminate|injection H as <-; auto].
  - injection H as <-. auto.
  - injection H as <-. auto.
Qed.

Lemma lookup_rule_other :
  lookup_rule other = Ok (mk_rule 100 true None None (Some true)).
Proof. reflexivity. Qed.

Lemma resolve_category_ok (category : json) :
  hashable category = true ->
  exists c r, resolve_category category = Ok c /\ lookup_rule c = Ok r
              /\ (c = meals -> daily_count_limit r = Some 3).
Proof.
  intros Hh. unfold resolve_category. rewrite Hh. cbn [negb].
  assert (Hother : exists c r, Ok other = Ok c /\ lookup_rule c = Ok r
                     /\ (c = meals -> daily_count_limit r = Some 3)).
  { exists other. eexists. split; [reflexivity|]. split; [exact lookup_rule_other|].
    discriminate. }
  destruct category as [|b|z|f|s|l|d]; try exact Hother.
  unfold lookup_rule.
  destruct (rules_get reimbursement_rules s) as [r|] eqn:Hr; [|exact Hother].
  exists s, r. rewrite Hr. split; [reflexivity|]. split; [reflexivity|].
  intros ->. vm_compute in Hr. injection Hr as <-. reflexivity.
Qed.

(** An acceptable dictionary gets a verdict, whatever the accumulator. *)
Lemma judge_total (today : string) dm (fields : list (string * json)) :
  acceptable today (JDict fields) ->
  exists v dm', judge today dm fields = Ok (v, dm').
Proof.
  intros (fields' & [= <-] & [a Ha] & Hc & Hd).
  destruct (resolve_category_ok _ Hc) as (c & r & Hrc & Hr & Hlimit).
  unfold Finance.judge. rewrite Ha. cbn. rewrite Hrc. cbn. rewrite Hr. cbn.
  destruct (basic_checks str_float c r a (item_has_invoice fields)) as [ok reasons].
  destruct (String.eqb_spec c meals) as [->|Hne]; [|eauto].
  rewrite Hd. cbn.
  destruct (bump dm (item_date today fields) a) as [dm1 n].
  unfold rule_daily_limit. rewrite (Hlimit eq_refl). cbn.
  destruct (3 <? n); eauto.
Qed.

Lemma verdicts_total (today : string) (items : list json) :
  Forall (acceptable today) items ->
  forall dm, exists vs dm', verdicts today dm items = Ok (vs, dm').
Proof.
  induction 1 as [|item items Hitem _ IH]; intros dm.
  - exists [], dm. reflexivity.
  - pose proof Hitem as (fields & -> & _).
    destruct (judge_total today dm fields Hitem) as (v & dm1 & Hj).
    destruct (IH dm1) as (vs & dm2 & Hvs).
    exists (v :: vs), dm2. cbn. rewrite Hj. cbn. rewrite Hvs. reflexivity.
Qed.

(** The loop stops at the first item whose amount [float] rejects. *)
Lemma verdicts_bad_amount (today : string) (pre post : list json)
    (fields : list (string * json)) (e : exn) :
  item_amount fields = Raise e ->
  forall dm vs dm',
    verdicts today dm pre = Ok (vs, dm') ->
    verdicts today dm (pre ++ JDict fields :: post) = Raise e.
Proof.
  intros Hbad. induction pre as [|item pre IH]; intros dm vs dm' Hpre.
  - cbn. unfold Finance.judge. rewrite Hbad. reflexivity.
  - destruct item as [| | | | | |f]; try discriminate.
    cbn in Hpre |- *.
    destruct (judge today dm f) as [[v dm1]|e']; [|discriminate]. cbn in Hpre |- *.
    destruct (verdicts today dm1 pre) as [[vs1 dm2]|e'] eqn:Hrest; [|discriminate].
    now rewrite (IH dm1 vs1 dm2 Hrest).
Qed.

Lemma check_compliance_list (today : string) (items : list json) :
  _check_compliance today (JList items) =
  match verdicts today [] items with
  | Ok (vs, _) =>
      Ok (mk_result (outputs true items vs) (outputs false items vs)
                    (float_sum (compliant_amounts vs))
                    (Z.of_nat (length items))
                    (Z.of_nat (length (outputs true items vs)))
                    (Z.of_nat (length (outputs false items vs))))
  | Raise e => Raise e
  end.
Proof.
  unfold Finance._check_compliance. cbn. rewrite run_loop_verdicts. cbn.
  now destruct (verdicts today [] items) as [[vs dm]|e].
Qed.

(** C1. A batch of acceptable expense dictionaries is evaluated to a
    result; and whenever the compliance evaluation returns a result, the
    two counts add up to the item count, each count is the length of its
    list, and the compliant total is the sum (added left to right in
    binary64 from 0.0, as the loop adds) of the amounts the loop reads from
    the items in the compliant list. *)
Theorem C1_batch_invariant :
  forall today : string,
    (forall items,
       Forall (acceptable today) items ->
       exists r, _check_compliance today (JList items) = Ok r)
    /\ (forall (expenses : json) (r : batch_result),
          _check_compliance today expenses = Ok r ->
          r_compliant_count r + r_non_compliant_count r = r_item_count r
          /\ r_compliant_count r = Z.of_nat (length (r_compliant r))
          /\ r_non_compliant_count r = Z.of_nat (length (r_non_compliant r))
          /\ exists amounts,
               Forall2 (fun item a => amount_of item = Ok a) (r_compliant r) amounts
               /\ r_total_amount r = float_sum amounts).
Proof.
  intros today. split.
  - intros items Hok.
    destruct (verdicts_total today items Hok []) as (vs & dm & Hvs).
    rewrite check_compliance_list, Hvs. eexists. reflexivity.
  - intros expenses r H.
    apply check_compliance_ok in H as (items & vs & dm & _ & Hvs & ->). cbn.
    split; [|split; [reflexivity|split; [reflexivity|]]].
    + apply outputs_lengths in Hvs. lia.
    + exists (compliant_amounts vs). split; [|reflexivity].
      eapply outputs_amounts, Hvs.
Qed.

(** [invoke] on a request dictionary that holds just "expenses". *)
Lemma invoke_request (today : string) (expenses : json) :
  invoke today (JDict [("expenses", expenses)]) =
  match _check_compliance today expenses with
  | Ok r => json_dumps (Some 2) (result_to_json r)
  | Raise e => if is_decode_error e then missing_json else failure e
  end.
Proof.
  unfold Finance.invoke, Finance.load_query, Finance.evaluate, mbind, result_bind.
  cbv beta iota.
  change (dict_get [("expenses", expenses)] "expenses") with (Some expenses).
  cbv beta iota.
  destruct (_check_compliance today expenses) as [r|[]]; reflexivity.
Qed.

(** C7 (as the code has it). An expense dictionary without an amount is
    given the amount 0.0, one without a date the evaluation date, and such
    an item gets its verdict like any other; a batch of dictionaries whose
    amounts [float] accepts (absent ones included) and whose category and
    date can be dictionary keys is evaluated without error.  An amount
    that is present and that [float] rejects is not replaced by 0: the
    evaluation raises at that item, and [invoke] returns the failure text
    for the whole request. *)
Theorem C7_missing_fields_tolerated :
  (forall fields, dict_get fields "金额" = None -> item_amount fields = Ok 0%float)
  /\ (forall today fields,
        dict_get fields "日期" = None -> item_date today fields = JStr today)
  /\ (forall today fields dm,
        dict_get fields "金额" = None ->
        dict_get fields "日期" = None ->
        hashable (item_category fields) = true ->
        exists v dm', judge today dm fields = Ok (v, dm') /\ v_amount v = 0%float)
  /\ (forall today items,
        Forall (acceptable today) items ->
        exists r, _check_compliance today (JList items) = Ok r
                  /\ r_item_count r = Z.of_nat (length items))
  /\ (forall today pre fields post e,
        Forall (acceptable today) pre ->
        item_amount fields = Raise e ->
        _check_compliance today (JList (pre ++ JDict fields :: post)) = Raise e
        /\ invoke today (JDict [("expenses", JList (pre ++ JDict fields :: post))])
           = failure e).
Proof.
  split; [exact missing_amount_is_zero|].
  split; [exact missing_date_is_today|].
  split; [|split].
  - intros today fields dm Ha Hd Hc.
    assert (Hok : acceptable today (JDict fields)).
    { exists fields. split; [reflexivity|]. split; [|split].
      - exists 0%float. now apply missing_amount_is_zero.
      - exact Hc.
      - now rewrite missing_date_is_today. }
    destruct (judge_total today dm fields Hok) as (v & dm' & Hj).
    exists v, dm'. split; [exact Hj|].
    apply judge_amount in Hj. rewrite (missing_amount_is_zero _ Ha) in Hj.
    now injection Hj.
  - intros today items Hok.
    destruct (verdicts_total today items Hok []) as (vs & dm & Hvs).
    rewrite check_compliance_list, Hvs. eexists. split; reflexivity.
  - intros today pre fields post e Hpre Hbad.
    destruct (verdicts_total today pre Hpre []) as (vs & dm & Hvs).
    assert (Hraise : _check_compliance today (JList (pre ++ JDict fields :: post))
                     = Raise e).
    { rewrite check_compliance_list.
      now rewrite (verdicts_bad_amount today pre post fields e Hbad [] vs dm Hvs). }
    split; [exact Hraise|].
    rewrite invoke_request, Hraise.
    apply item_amount_raises in Hbad as (v & _ & [->| [->| ->]]); reflexivity.
Qed.

(** *** Order and determinism *)

(** The evaluation date is read only through [item_date]. *)
Lemma judge_dated (today1 today2 : string) dm (fields : list (string * json)) :
  dict_mem fields "日期" = true ->
  judge today1 dm fields = judge today2 dm fields.
Proof.
  intros Hd. unfold Finance.judge, item_date, dict_get_default.
  unfold dict_mem in Hd. now destruct (dict_get fields "日期").
Qed.

Lemma verdicts_dated (today1 today2 : string) (items : list json) :
  Forall (fun item => carries_date item = true) items ->
  forall dm, verdicts today1 dm items = verdicts today2 dm items.
Proof.
  induction 1 as [|item items Hitem _ IH]; intros dm; [reflexivity|].
  destruct item as [| | | | | |fields]; try reflexivity.
  cbn. rewrite (judge_dated today1 today2 dm fields Hitem).
  destruct (judge today2 dm fields) as [[v dm1]|e]; [|reflexivity].
  cbn. now rewrite IH.
Qed.

(** The two result lists split the items without reordering them. *)
Lemma outputs_split (today : string) (items : list json) :
  forall dm vs dm',
    verdicts today dm items = Ok (vs, dm') ->
    split_of items (outputs true items vs) (outputs false items vs).
Proof.
  induction items as [|item rest IH]; intros dm vs dm' H.
  - injection H as <- <-. constructor.
  - destruct item as [| | | | | |fields]; try discriminate.
    cbn in H. destruct (judge today dm fields) as [[v dm1]|e]; [|discriminate].
    cbn in H. destruct (verdicts today dm1 rest) as [[vs1 dm2]|e] eqn:Hrest;
      [|discriminate].
    injection H as <- <-. apply IH in Hrest. cbn. unfold annotate.
    destruct (v_is_compliant v); cbn; now constructor.
Qed.

(** C9 (as the code has it). Two evaluations of the same items give the
    same result when they run on the same evaluation date, or on any two
    dates when every expense dictionary carries its own date.  The result
    lists split the items without reordering: each item appears, as its
    annotated copy, in exactly one list and in submission order; the
    counts are the lengths of the lists and add up to the item count, and
    the total is the left-to-right sum of the compliant items' amounts. *)
Theorem C9_order_and_determinism :
  (forall today1 today2 items,
     today1 = today2 \/ Forall (fun item => carries_date item = true) items ->
     _check_compliance today1 (JList items) = _check_compliance today2 (JList items))
  /\ (forall today items r,
        _check_compliance today (JList items) = Ok r ->
        split_of items (r_compliant r) (r_non_compliant r)
        /\ r_item_count r = Z.of_nat (length items)
        /\ r_compliant_count r = Z.of_nat (length (r_compliant r))
        /\ r_non_compliant_count r = Z.of_nat (length (r_non_compliant r))
        /\ r_compliant_count r + r_non_compliant_count r = r_item_count r
        /\ exists amounts,
             Forall2 (fun item a => amount_of item = Ok a) (r_compliant r) amounts
             /\ r_total_amount r = float_sum amounts).
Proof.
  split.
  - intros today1 today2 items [->|Hdated]; [reflexivity|].
    rewrite !check_compliance_list. now rewrite (verdicts_dated today1 today2).
  - intros today items r H. rewrite check_compliance_list in H.
    destruct (verdicts today [] items) as [[vs dm]|e] eqn:Hvs; [|discriminate].
    injection H as <-. cbn.
    split; [eapply outputs_split, Hvs|].
    do 3 (split; [reflexivity|]).
    split; [apply outputs_lengths in Hvs; lia|].
    exists (compliant_amounts vs). split; [|reflexivity].
    eapply outputs_amounts, Hvs.
Qed.

(** *** [stream] against [invoke] *)

Lemma resolve_category_raises (category : json) (e : exn) :
  resolve_category category = Raise e -> e = TypeError category.
Proof.
  unfold resolve_category.
  destruct (hashable category); cbn [negb]; [|now intros [= <-]].
  destruct category as [| | | |s| |]; try discriminate.
  destruct (rules_get reimbursement_rules s); discriminate.
Qed.

Lemma judge_raises (today : string) dm (fields : list (string * json)) (e : exn) :
  judge today dm fields = Raise e -> is_decode_error e = false.
Proof.
  unfold Finance.judge. intros H.
  destruct (item_amount fields) as [amount|e0] eqn:Ha.
  2: { injection H as <-.
       apply item_amount_raises in Ha as (v & _ & [->| [->| ->]]); reflexivity. }
  cbn [mbind result_bind] in H.
  destruct (resolve_category (item_category fields)) as [category|e0] eqn:Hc.
  2: { injection H as <-. now rewrite (resolve_category_raises _ _ Hc). }
  cbn [mbind result_bind] in H. unfold lookup_rule in H.
  destruct (rules_get reimbursement_rules category) as [r|];
    [|injection H as <-; reflexivity].
  cbn [mbind result_bind] in H.
  destruct (basic_checks str_float category r amount (item_has_invoice fields)).
  destruct (String.eqb category meals); [|discriminate].
  destruct (hashable (item_date today fields)); cbn [negb] in H;
    [|injection H as <-; reflexivity].
  destruct (bump dm (item_date today fields) amount).
  unfold rule_daily_limit in H.
  destruct (daily_count_limit r); cbn [mbind result_bind] in H;
    [|injection H as <-; reflexivity].
  destruct (_ <? _); discriminate.
Qed.

Lemma run_loop_raises (today : string) (items : list json) (e : exn) :
  forall st, run_loop today st items = Raise e -> is_decode_error e = false.
Proof.
  induction items as [|item rest IH]; intros st H; [discriminate|].
  cbn in H.
  destruct item as [| | | | | |fields]; try (injection H as <-; reflexivity).
  cbn in H.
  destruct (judge today (daily_meals st) fields) as [[v dm']|e0] eqn:Hj.
  - cbn in H. eapply IH, H.
  - injection H as <-. eapply judge_raises, Hj.
Qed.

Lemma check_compliance_raises (today : string) (expenses : json) (e : exn) :
  _check_compliance today expenses = Raise e -> is_decode_error e = false.
Proof.
  unfold Finance._check_compliance. intros H.
  destruct expenses as [| | | |s|items|fields]; cbn in H;
    try (injection H as <-; reflexivity);
    match type of H with
    | context [run_loop today initial_state ?l] =>
        destruct (run_loop today initial_state l) as [st|e0] eqn:Hl;
          [discriminate|injection H as <-; eapply run_loop_raises, Hl]
    end.
Qed.

Lemma evaluate_raises (today : string) (data : json) (e : exn) :
  evaluate today data = Raise e -> is_decode_error e = false.
Proof.
  unfold Finance.evaluate.
  destruct data as [| | | | | |fields]; try discriminate.
  destruct (dict_get fields "expenses") as [expenses|]; [|discriminate].
  destruct (_check_compliance today expenses) as [r|e0] eqn:Hc; [discriminate|].
  intros [= <-]. eapply check_compliance_raises, Hc.
Qed.

(** The terminal event after [data] is known, against what [invoke]
    returns for the same [data]. *)
Lemma finish_spec (today : string) (data : json) :
  match evaluate today data with
  | Ok (Some r) => finish today data = Done (Response (json_dumps None (result_to_json r)))
  | Ok None => finish today data = Done (Text missing_expenses)
  | Raise e => finish today data = Done (Text (failure e)) /\ is_decode_error e = false
  end.
Proof.
  unfold Finance.finish.
  destruct (evaluate today data) as [[r|]|e] eqn:He; try reflexivity.
  split; [reflexivity|]. eapply evaluate_raises, He.
Qed.

(** [invoke] once the loaded [data] is known. *)
Lemma invoke_loaded (today : string) (query data : json) :
  load_query query = Ok data ->
  invoke today query =
  match evaluate today data with
  | Ok (Some r) => json_dumps (Some 2) (result_to_json r)
  | Ok None => missing_expenses
  | Raise e => if is_decode_error e then missing_json else failure e
  end.
Proof.
  intros Hl. unfold Finance.invoke. rewrite Hl. cbn [mbind result_bind].
  destruct (evaluate today data) as [[r|]|[]]; reflexivity.
Qed.

Lemma stream_loaded (today : string) (query data : json) :
  load_query query = Ok data ->
  stream today query = [started; finish today data].
Proof.
  unfold Finance.stream, Finance.load_query.
  destruct query as [| | | |s| |]; try (now intros [= <-]).
  intros ->. reflexivity.
Qed.

(** C3 (as the code has it). Consumed to its end, [stream] yields exactly
    two events: the in-progress notice, then one terminal event.  When the
    query loads to a dictionary with "expenses" that evaluates to a result,
    the terminal payload is [{"response": {"result": text}}] with [text]
    the compact serialisation of that result, and [invoke] returns the same
    result serialised with [indent=2]; in every other case the payload is
    the very string that [invoke] returns. *)
Theorem C3_stream_protocol :
  forall (today : string) (query : json),
    exists payload,
      stream today query = [InProgress "正在处理报销合规性检查..."; Done payload]
      /\ map is_task_complete (stream today query) = [false; true]
      /\ match load_query query ≫= evaluate today with
         | Ok (Some r) =>
             payload = Response (json_dumps None (result_to_json r))
             /\ invoke today query = json_dumps (Some 2) (result_to_json r)
         | _ => payload = Text (invoke today query)
         end.
Proof.
  intros today query.
  destruct (load_query query) as [data|e] eqn:Hl.
  - rewrite (stream_loaded today query data Hl), (invoke_loaded today query data Hl).
    cbn [mbind result_bind]. pose proof (finish_spec today data) as Hf.
    destruct (evaluate today data) as [[r|]|e].
    + eexists. rewrite Hf. repeat split; reflexivity.
    + eexists. rewrite Hf. repeat split; reflexivity.
    + destruct Hf as [Hf He]. rewrite Hf, He. eexists. repeat split; reflexivity.
  - cbn [mbind result_bind].
    destruct query as [| | | |s| |]; try discriminate.
    unfold Finance.stream, Finance.invoke. cbn [Finance.load_query] in Hl |- *.
    rewrite Hl. cbn [mbind result_bind].
    destruct e; eexists; repeat split; reflexivity.
Qed.

(** *** The daily meal count *)

Lemma key_eqb_str (k : json) (d : string) :
  key_eqb k (JStr d) = true <-> k = JStr d.
Proof.
  destruct k as [| | | |s| |]; cbn; try (split; discriminate).
  rewrite String.eqb_eq. split; [now intros ->|now intros [= ->]].
Qed.

(** [bump] returns the count it stores: one more than before. *)
Lemma bump_count dm (date : json) (amount : float) :
  snd (bump dm date amount) = meal_count dm date + 1.
Proof.
  induction dm as [|[k e] dm IH]; cbn; [reflexivity|].
  destruct (key_eqb k date); [reflexivity|].
  destruct (bump dm date amount) as [dm1 n]. exact IH.
Qed.

Lemma meal_count_bump_same dm (d : string) (amount : float) :
  meal_count (fst (bump dm (JStr d) amount)) (JStr d)
  = meal_count dm (JStr d) + 1.
Proof.
  induction dm as [|[k e] dm IH]; cbn.
  - now rewrite String.eqb_refl.
  - destruct (key_eqb k (JStr d)) eqn:Hk; cbn.
    + now rewrite Hk.
    + destruct (bump dm (JStr d) amount) as [dm1 n]. cbn in IH |- *.
      now rewrite Hk.
Qed.

(** A meal of another date leaves the count of [d] alone. *)
Lemma meal_count_bump_other dm (date : json) (d : string) (amount : float) :
  key_eqb date (JStr d) = false ->
  meal_count (fst (bump dm date amount)) (JStr d) = meal_count dm (JStr d).
Proof.
  intros Hne. induction dm as [|[k e] dm IH]; cbn.
  - now rewrite Hne.
  - destruct (key_eqb k date) eqn:Hk; cbn.
    + destruct (key_eqb k (JStr d)) eqn:Hd; [|reflexivity].
      apply key_eqb_str in Hd as ->.
      destruct date as [| | | |s| |]; cbn in Hk, Hne; try congruence.
      rewrite String.eqb_sym in Hk. congruence.
    + destruct (bump dm date amount) as [dm1 n]. cbn in IH |- *.
      now rewrite IH.
Qed.

Lemma resolve_meals (category : json) :
  resolve_category category = Ok meals <-> category = JStr meals.
Proof.
  split; [|now intros ->].
  unfold resolve_category.
  destruct (hashable category); cbn [negb]; [|discriminate].
  destruct category as [| | | |s| |]; try discriminate.
  destruct (rules_get reimbursement_rules s); [now intros [= ->]|discriminate].
Qed.

(** Neither basic reason is the daily-limit reason. *)
Lemma basic_reasons_not_limit (r : rule) (amount : float) (has_invoice : json)
    (limit : Z) :
  ~ In (daily_limit_reason limit)
       (snd (basic_checks str_float meals r amount has_invoice)).
Proof.
  unfold basic_checks, cap_reason, invoice_reason, daily_limit_reason.
  destruct (max_amount r <? amount)%float;
    destruct (invoice_required r && negb (truthy has_invoice));
    cbn; intros H; decompose [or] H; try discriminate; auto.
Qed.

(** The verdict on a meal expense, with the count it reaches. *)
Lemma judge_meal (today : string) dm (fields : list (string * json)) v dm' :
  item_category fields = JStr meals ->
  judge today dm fields = Ok (v, dm') ->
  let date := item_date today fields in
  let n := meal_count dm date + 1 in
  dm' = fst (bump dm date (v_amount v))
  /\ (In (daily_limit_reason 3) (v_reasons v) <-> 3 < n)
  /\ (3 < n -> v_is_compliant v = false).
Proof.
  intros Hcat Hj. apply judge_ok in Hj as (c & r & Ha & Hc & Hr & Hrest).
  rewrite Hcat in Hc. injection Hc as <-.
  injection Hr as <-. cbn [String.eqb] in Hrest.
  change (String.eqb meals meals) with true in Hrest. cbv zeta in Hrest.
  destruct Hrest as (Hh & -> & limit & [= <-] & Hv).
  rewrite bump_count in Hv. cbv zeta in Hv. destruct Hv as [Hok Hreasons].
  cbv zeta. split; [reflexivity|]. split.
  - rewrite Hreasons, in_app_iff.
    destruct (Z.ltb_spec 3 (meal_count dm (item_date today fields) + 1)).
    + split; [auto|]. intros _. right. now left.
    + split; [|lia]. intros [H1|[]].
      now apply basic_reasons_not_limit in H1.
  - intros Hn. rewrite Hok. apply Z.ltb_lt in Hn. rewrite Hn. apply andb_false_r.
Qed.

Lemma meal_on_true (today d : string) (fields : list (string * json)) :
  meal_on today d (JDict fields) = true <->
  item_category fields = JStr meals /\ item_date today fields = JStr d.
Proof.
  unfold meal_on. now rewrite andb_true_iff, !key_eqb_str.
Qed.

(** One iteration moves the count of [d] by one for a meal dated [d] and
    not at all for any other item. *)
Lemma judge_meal_count (today d : string) dm (fields : list (string * json)) v dm' :
  judge today dm fields = Ok (v, dm') ->
  meal_count dm' (JStr d)
  = meal_count dm (JStr d) + (if meal_on today d (JDict fields) then 1 else 0).
Proof.
  intros Hj. pose proof Hj as (c & r & _ & Hc & _ & Hrest)%judge_ok.
  cbv zeta in Hrest.
  destruct (String.eqb_spec c meals) as [->|Hne].
  - apply resolve_meals in Hc. destruct Hrest as (_ & -> & _).
    unfold meal_on. rewrite Hc. cbn [key_eqb]. rewrite String.eqb_refl.
    cbn [andb].
    destruct (key_eqb (item_date today fields) (JStr d)) eqn:Hd.
    + apply key_eqb_str in Hd as ->. apply meal_count_bump_same.
    + rewrite meal_count_bump_other by exact Hd. lia.
  - destruct Hrest as (-> & _).
    destruct (meal_on today d (JDict fields)) eqn:Hm; [|lia].
    apply meal_on_true in Hm as [Hcat _]. rewrite Hcat in Hc.
    cbn in Hc. congruence.
Qed.

Lemma verdicts_meal_count (today d : string) (items : list json) :
  forall dm vs dm',
    verdicts today dm items = Ok (vs, dm') ->
    meal_count dm' (JStr d) = meal_count dm (JStr d) + meals_on today d items.
Proof.
  induction items as [|item rest IH]; intros dm vs dm' H.
  - injection H as <- <-. unfold meals_on. cbn. lia.
  - destruct item as [| | | | | |fields]; try discriminate.
    cbn [Finance.verdicts] in H.
    destruct (judge today dm fields) as [[v dm1]|e] eqn:Hj; [|discriminate].
    cbn [mbind result_bind] in H.
    destruct (verdicts today dm1 rest) as [[vs1 dm2]|e] eqn:Hrest; [|discriminate].
    injection H as <- <-.
    rewrite (IH _ _ _ Hrest), (judge_meal_count today d _ _ _ _ Hj).
    unfold meals_on. cbn [List.filter].
    destruct (meal_on today d (JDict fields)); cbn [length]; lia.
Qed.

(** The verdicts of a batch, cut at one of its items. *)
Lemma verdicts_at (today : string) (pre post : list json)
    (fields : list (string * json)) :
  forall dm vs dm',
    verdicts today dm (pre ++ JDict fields :: post) = Ok (vs, dm') ->
    exists vs1 dm1 v dm2 vs2,
      verdicts today dm pre = Ok (vs1, dm1)
      /\ judge today dm1 fields = Ok (v, dm2)
      /\ verdicts today dm2 post = Ok (vs2, dm')
      /\ vs = vs1 ++ v :: vs2.
Proof.
  induction pre as [|item pre IH]; intros dm vs dm' H.
  - cbn [app Finance.verdicts] in H.
    destruct (judge today dm fields) as [[v dm2]|e] eqn:Hj; [|discriminate].
    cbn [mbind result_bind] in H.
    destruct (verdicts today dm2 post) as [[vs2 dm3]|e] eqn:Hpost; [|discriminate].
    injection H as <- <-. exists [], dm, v, dm2, vs2. auto.
  - destruct item as [| | | | | |f]; try discriminate.
    cbn [app Finance.verdicts] in H |- *.
    destruct (judge today dm f) as [[v0 dm0]|e]; [|discriminate].
    cbn [mbind result_bind] in H |- *.
    destruct (verdicts today dm0 (pre ++ JDict fields :: post))
      as [[vs0 dm3]|e] eqn:Hrest; [|discriminate].
    injection H as <- <-.
    destruct (IH _ _ _ Hrest) as (vs1 & dm1 & v & dm2 & vs2 & H1 & H2 & H3 & ->).
    rewrite H1. exists (v0 :: vs1), dm1, v, dm2, vs2. auto.
Qed.

(** In any batch, a meal expense dated [d] carries the daily-limit reason
    exactly when it is at least the fourth meal of that date so far. *)
Lemma limit_reason_at (today d : string) (pre post : list json)
    (fields : list (string * json)) vs dm :
  meal_on today d (JDict fields) = true ->
  verdicts today [] (pre ++ JDict fields :: post) = Ok (vs, dm) ->
  exists vs1 v vs2,
    vs = vs1 ++ v :: vs2 /\ length vs1 = length pre
    /\ (In (daily_limit_reason 3) (v_reasons v) <-> 3 < meals_on today d pre + 1)
    /\ (3 < meals_on today d pre + 1 -> v_is_compliant v = false).
Proof.
  intros Hm H.
  apply verdicts_at in H as (vs1 & dm1 & v & dm2 & vs2 & H1 & H2 & H3 & ->).
  exists vs1, v, vs2. split; [reflexivity|]. split.
  - clear -H1. revert vs1 dm1 H1. generalize (@nil (json * meal_entry)).
    induction pre as [|item pre IH]; intros dm vs1 dm1 H.
    + now injection H as <- <-.
    + destruct item as [| | | | | |f]; try discriminate. cbn in H.
      destruct (judge today dm f) as [[v0 dm0]|e]; [|discriminate]. cbn in H.
      destruct (verdicts today dm0 pre) as [[vs0 dm3]|e] eqn:Hrest; [|discriminate].
      injection H as <- <-. cbn. f_equal. eapply IH, Hrest.
  - apply meal_on_true in Hm as [Hcat Hdate].
    apply (verdicts_meal_count today d) in H1. cbn [meal_count] in H1.
    pose proof (judge_meal today dm1 fields v dm2 Hcat H2) as Hj.
    cbv zeta in Hj. rewrite Hdate, H1 in Hj.
    destruct Hj as (_ & Hiff & Hbad). rewrite Z.add_0_l in Hiff, Hbad. auto.
Qed.

Lemma meal_acceptable (today d : string) (fields : list (string * json)) (a : float) :
  meal_on today d (JDict fields) = true ->
  item_amount fields = Ok a ->
  acceptable today (JDict fields).
Proof.
  intros [Hcat Hdate]%meal_on_true Ha. exists fields.
  split; [reflexivity|]. split; [eauto|]. now rewrite Hcat, Hdate.
Qed.

(** C2. A meal expense always bumps the count of its date: the verdict on
    it, whatever the limit and invoice checks said, comes with the
    accumulator updated by [bump], whose stored count is the previous one
    plus one; and the verdict carries the daily-limit reason exactly when
    that count exceeds 3 (it is then non-compliant).  This is stated for
    every date that is not a NaN float: whether a NaN date finds its entry
    again depends on the identity of the float object.  In any batch, a
    meal dated [d] therefore carries the reason exactly when three or more
    meals dated [d] precede it.  For four meals of one date, whatever their
    amounts, the first three verdicts lack the daily-limit reason, the
    fourth has it, and its annotated copy ends the non-compliant list.  The
    daily-limit reason is the text "超出餐饮费每日3次限制". *)
Theorem C2_daily_meal_count :
  (forall today dm fields v dm',
     item_category fields = JStr meals ->
     nan_key (item_date today fields) = false ->
     judge today dm fields = Ok (v, dm') ->
     let date := item_date today fields in
     dm' = fst (bump dm date (v_amount v))
     /\ snd (bump dm date (v_amount v)) = meal_count dm date + 1
     /\ (forall d, date = JStr d -> meal_count dm' date = meal_count dm date + 1)
     /\ (In (daily_limit_reason 3) (v_reasons v) <-> 3 < meal_count dm date + 1)
     /\ (3 < meal_count dm date + 1 -> v_is_compliant v = false))
  /\ (forall today d pre post fields vs dm,
        meal_on today d (JDict fields) = true ->
        verdicts today [] (pre ++ JDict fields :: post) = Ok (vs, dm) ->
        exists vs1 v vs2,
          vs = vs1 ++ v :: vs2 /\ length vs1 = length pre
          /\ (In (daily_limit_reason 3) (v_reasons v)
              <-> 3 < meals_on today d pre + 1)
          /\ (3 < meals_on today d pre + 1 -> v_is_compliant v = false))
  /\ (forall today d f1 f2 f3 f4 a1 a2 a3 a4,
        meal_on today d (JDict f1) = true -> item_amount f1 = Ok a1 ->
        meal_on today d (JDict f2) = true -> item_amount f2 = Ok a2 ->
        meal_on today d (JDict f3) = true -> item_amount f3 = Ok a3 ->
        meal_on today d (JDict f4) = true -> item_amount f4 = Ok a4 ->
        exists v1 v2 v3 v4 dm r,
          verdicts today [] [JDict f1; JDict f2; JDict f3; JDict f4]
          = Ok ([v1; v2; v3; v4], dm)
          /\ ~ In (daily_limit_reason 3) (v_reasons v1)
          /\ ~ In (daily_limit_reason 3) (v_reasons v2)
          /\ ~ In (daily_limit_reason 3) (v_reasons v3)
          /\ In (daily_limit_reason 3) (v_reasons v4)
          /\ v_is_compliant v4 = false
          /\ _check_compliance today (JList [JDict f1; JDict f2; JDict f3; JDict f4])
             = Ok r
          /\ last (r_non_compliant r) = Some (annotate f4 v4))
  /\ daily_limit_reason 3 = "超出餐饮费每日3次限制".
Proof.
  split; [|split; [exact limit_reason_at|split; [|vm_compute; reflexivity]]].
  - intros today dm fields v dm' Hcat _ Hj. cbv zeta.
    destruct (judge_meal today dm fields v dm' Hcat Hj) as (Hdm & Hiff & Hbad).
    split; [exact Hdm|]. split; [apply bump_count|]. split; [|auto].
    intros d Hd. rewrite Hdm, Hd. apply meal_count_bump_same.
  - intros today d f1 f2 f3 f4 a1 a2 a3 a4 M1 A1 M2 A2 M3 A3 M4 A4.
    destruct (judge_total today [] f1 (meal_acceptable _ _ _ _ M1 A1))
      as (v1 & dm1 & J1).
    destruct (judge_total today dm1 f2 (meal_acceptable _ _ _ _ M2 A2))
      as (v2 & dm2 & J2).
    destruct (judge_total today dm2 f3 (meal_acceptable _ _ _ _ M3 A3))
      as (v3 & dm3 & J3).
    destruct (judge_total today dm3 f4 (meal_acceptable _ _ _ _ M4 A4))
      as (v4 & dm4 & J4).
    pose proof (judge_meal_count today d _ _ _ _ J1) as C1.
    pose proof (judge_meal_count today d _ _ _ _ J2) as C2.
    pose proof (judge_meal_count today d _ _ _ _ J3) as C3.
    rewrite M1 in C1. rewrite M2 in C2. rewrite M3 in C3. cbn [meal_count] in C1.
    pose proof M1 as [K1 D1]%meal_on_true. pose proof M2 as [K2 D2]%meal_on_true.
    pose proof M3 as [K3 D3]%meal_on_true. pose proof M4 as [K4 D4]%meal_on_true.
    destruct (judge_meal today _ _ _ _ K1 J1) as (_ & R1 & _).
    destruct (judge_meal today _ _ _ _ K2 J2) as (_ & R2 & _).
    destruct (judge_meal today _ _ _ _ K3 J3) as (_ & R3 & _).
    destruct (judge_meal today _ _ _ _ K4 J4) as (_ & R4 & B4).
    rewrite D1 in R1. rewrite D2 in R2. rewrite D3 in R3. rewrite D4 in R4, B4.
    cbn [meal_count] in R1.
    assert (Hvs : verdicts today [] [JDict f1; JDict f2; JDict f3; JDict f4]
                  = Ok ([v1; v2; v3; v4], dm4)).
    { cbn [Finance.verdicts]. rewrite J1. cbn [mbind result_bind].
      rewrite J2. cbn [mbind result_bind]. rewrite J3. cbn [mbind result_bind].
      rewrite J4. reflexivity. }
    assert (Hbad : v_is_compliant v4 = false) by (apply B4; lia).
    exists v1, v2, v3, v4, dm4. eexists.
    split; [exact Hvs|].
    split; [rewrite R1; lia|]. split; [rewrite R2; lia|].
    split; [rewrite R3; lia|]. split; [apply R4; lia|].
    split; [exact Hbad|].
    rewrite check_compliance_list, Hvs. split; [reflexivity|].
    cbn [r_non_compliant outputs]. rewrite Hbad.
    destruct (v_is_compliant v1), (v_is_compliant v2), (v_is_compliant v3);
      reflexivity.
Qed.

End AgentFacts.

(** *** Closed instances

    The statements above hold for every runtime.  Where a closed instance
    needs one, it names [no_float_of_str] and [opaque_str_float]; where it
    is an equation between functions of the runtime, it holds whatever the
    runtime is. *)

(** The scenario of the specification: 250 passes the transport limit of
    300, 350 does not. *)
Example transport_scenario :
  exists ok bad,
    _check_compliance no_float_of_str opaque_str_float "2025-06-01" transport_batch
    = Ok (mk_result [ok] [bad] 250 2 1 1)
    /\ ok = JDict (expense_fields "交通费" 250 "2025-06-01" true ++ [("合规", JBool true)])
    /\ bad = JDict (expense_fields "交通费" 350 "2025-06-01" true
                    ++ [("合规", JBool false);
                        ("原因", JList [JStr "超出交通费最高限额<float>元"])]).
Proof. do 2 eexists. repeat split. Qed.

(** The invariant at the transport scenario. *)
Lemma C1_batch_invariant_witness :
  exists r,
    _check_compliance no_float_of_str opaque_str_float "2025-06-01" transport_batch
    = Ok r
    /\ r_total_amount r = 250%float
    /\ (r_compliant_count r + r_non_compliant_count r = r_item_count r
        /\ r_compliant_count r = Z.of_nat (length (r_compliant r))
        /\ r_non_compliant_count r = Z.of_nat (length (r_non_compliant r))
        /\ exists amounts,
             Forall2 (fun item a => amount_of no_float_of_str item = Ok a)
                     (r_compliant r) amounts
             /\ r_total_amount r = float_sum amounts).
Proof.
  eexists. split; [reflexivity|]. split; [reflexivity|].
  exact (proj2 (C1_batch_invariant no_float_of_str opaque_str_float "2025-06-01")
           transport_batch _ eq_refl).
Defined.

(** A meal that already failed the limit and the invoice check still
    takes a slot of its day: the fourth meal, in order on its own, is
    rejected for the count alone. *)
Example rejected_meal_still_counts :
  exists r bad1 bad4,
    _check_compliance no_float_of_str opaque_str_float "2025-06-02"
      (JList [expense "餐饮费" 150 "2025-06-01" false;
              expense "餐饮费" 40 "2025-06-01" true;
              expense "餐饮费" 50 "2025-06-01" true;
              expense "餐饮费" 60 "2025-06-01" true])
    = Ok r
    /\ r_non_compliant r = [bad1; bad4]
    /\ r_compliant_count r = 2
    /\ bad4 = JDict (expense_fields "餐饮费" 60 "2025-06-01" true
                     ++ [("合规", JBool false);
                         ("原因", JList [JStr "超出餐饮费每日3次限制"])]).
Proof. do 3 eexists. repeat split. Qed.

(** Four meals of one date, evaluated on another day; and the fourth of
    them on its own, met when its date already counts three. *)
Lemma C2_daily_meal_count_witness :
  let f := fun a => expense_fields "餐饮费" a "2025-06-01" true in
  let dm3 := [(JStr "2025-06-01", mk_meal_entry 3 120)] in
  (meal_on "2025-06-02" "2025-06-01" (JDict (f 30)) = true
   /\ item_amount no_float_of_str (f 30) = Ok 30%float)
  /\ ((item_category (f 60) = JStr meals
       /\ nan_key (item_date "2025-06-02" (f 60)) = false)
      /\ exists v dm',
           judge no_float_of_str opaque_str_float "2025-06-02" dm3 (f 60)
           = Ok (v, dm')
           /\ dm' = [(JStr "2025-06-01", mk_meal_entry 4 180)]
           /\ In (daily_limit_reason 3) (v_reasons v)
           /\ v_is_compliant v = false)
  /\ exists v1 v2 v3 v4 dm r,
       verdicts no_float_of_str opaque_str_float "2025-06-02" []
         [JDict (f 30); JDict (f 40); JDict (f 50); JDict (f 60)]
       = Ok ([v1; v2; v3; v4], dm)
       /\ ~ In (daily_limit_reason 3) (v_reasons v1)
       /\ ~ In (daily_limit_reason 3) (v_reasons v2)
       /\ ~ In (daily_limit_reason 3) (v_reasons v3)
       /\ In (daily_limit_reason 3) (v_reasons v4)
       /\ v_is_compliant v4 = false
       /\ _check_compliance no_float_of_str opaque_str_float "2025-06-02"
            (JList [JDict (f 30); JDict (f 40); JDict (f 50); JDict (f 60)])
          = Ok r
       /\ last (r_non_compliant r) = Some (annotate (f 60) v4).
Proof.
  intros f dm3. split; [split; reflexivity|]. split.
  - split; [split; reflexivity|].
    pose proof (fun v dm' Hj =>
                  conj Hj
                    (proj1 (C2_daily_meal_count no_float_of_str opaque_str_float)
                       "2025-06-02" dm3 (f 60) v dm' eq_refl eq_refl Hj)) as W.
    cbv zeta in W.
    destruct (W _ _ eq_refl) as (Hj & Hdm & _ & _ & Hiff & Hbad).
    eexists _, _. split; [exact Hj|]. split; [exact Hdm|].
    split; [apply Hiff; vm_compute; reflexivity|apply Hbad; vm_compute; reflexivity].
  - exact (proj1 (proj2 (proj2
             (C2_daily_meal_count no_float_of_str opaque_str_float)))
             "2025-06-02" "2025-06-01" (f 30) (f 40) (f 50) (f 60)
             30%float 40%float 50%float 60%float
             eq_refl eq_refl eq_refl eq_refl eq_refl eq_refl eq_refl eq_refl).
Defined.

(** An item with neither amount nor date. *)
Lemma C7_missing_fields_tolerated_witness :
  let fields := [("类别", JStr "交通费"); ("是否有发票", JBool true)] in
  (dict_get fields "金额" = None /\ dict_get fields "日期" = None
   /\ hashable (item_category fields) = true)
  /\ exists v dm',
       judge no_float_of_str opaque_str_float "2025-06-01" [] fields = Ok (v, dm')
       /\ v_amount v = 0%float.
Proof.
  intros fields. split; [repeat split|].
  exact (proj1 (proj2 (proj2
           (C7_missing_fields_tolerated no_float_of_str opaque_str_float
              (fun _ => Raise (JSONDecodeError "")) (fun _ _ => "") (fun _ => ""))))
           "2025-06-01" fields [] eq_refl eq_refl eq_refl).
Defined.

(** C7, against the specification's wording.  An amount that is present but is not
    a number is not turned into 0: with [null] the evaluation raises
    [TypeError] at the second item, whatever the runtime, and [invoke]
    answers the whole request, the good first item included, with the
    failure text; with the text "abc", which [float] rejects, it raises
    [ValueError]. *)
Lemma C7_invalid_amount_raises :
  (fun float_of_str str_float =>
     _check_compliance float_of_str str_float "2025-06-01" null_amount_batch)
  = (fun _ _ => Raise (TypeError JNull))
  /\ (fun float_of_str str_float json_loads json_dumps str_exn =>
        invoke float_of_str str_float json_loads json_dumps str_exn "2025-06-01"
          (JDict [("expenses", null_amount_batch)]))
     = (fun _ _ _ _ str_exn => "处理报销请求时出错: " +:+ str_exn (TypeError JNull))
  /\ _check_compliance no_float_of_str opaque_str_float "2025-06-01" text_amount_batch
     = Raise (ValueError (JStr "abc")).
Proof. repeat split. Qed.

(** Dated items evaluated on two different days. *)
Lemma C9_order_and_determinism_witness :
  Forall (fun item => carries_date item = true) transport_items
  /\ _check_compliance no_float_of_str opaque_str_float "2025-06-01"
       (JList transport_items)
     = _check_compliance no_float_of_str opaque_str_float "2025-12-31"
         (JList transport_items).
Proof.
  assert (H : Forall (fun item => carries_date item = true) transport_items)
    by (repeat constructor).
  split; [exact H|].
  exact (proj1 (C9_order_and_determinism no_float_of_str opaque_str_float)
           "2025-06-01" "2025-12-31" transport_items (or_intror H)).
Defined.

(** C9, against the specification's wording.  The same four items (three meals
    dated 2025-06-01 and one meal without a date) evaluated on 2025-06-01
    and on 2025-06-02 give different results, whatever the runtime: on the
    first day the undated meal is the fourth of its date and is rejected,
    on the second day it is the first of its date and passes. *)
Lemma C9_clock_dependence :
  (fun float_of_str str_float =>
     r_compliant_count <$>
       _check_compliance float_of_str str_float "2025-06-01" undated_meals_batch)
  = (fun _ _ => Ok 3)
  /\ (fun float_of_str str_float =>
        r_compliant_count <$>
          _check_compliance float_of_str str_float "2025-06-02" undated_meals_batch)
     = (fun _ _ => Ok 4).
Proof. split; reflexivity. Qed.

(** C3, against the specification's wording.  For the request [{"expenses": []}],
    whatever the runtime, the terminal payload of [stream] is the
    dictionary [{"response": {"result": text}}] around the compact
    serialisation, while [invoke] returns the serialisation made with
    [indent=2]: a dictionary against a string, and two different calls of
    [json.dumps]. *)
Lemma C3_payload_differs :
  (fun float_of_str str_float json_loads json_dumps str_exn =>
     stream float_of_str str_float json_loads json_dumps str_exn "2025-06-01"
       (JDict [("expenses", JList [])]))
  = (fun _ _ _ json_dumps _ =>
       [started; Done (Response (json_dumps None (result_to_json empty_result)))])
  /\ (fun float_of_str str_float json_loads json_dumps str_exn =>
        invoke float_of_str str_float json_loads json_dumps str_exn "2025-06-01"
          (JDict [("expenses", JList [])]))
     = (fun _ _ _ json_dumps _ => json_dumps (Some 2) (result_to_json empty_result)).
Proof. split; reflexivity. Qed.

End FinanceFacts.

(** ** More on the compliance evaluator *)

Module FinanceExtra.
Import Finance FinanceFacts.

Local Open Scope Z_scope.

(** The table has these five names and no other; every rule asks for an
    invoice. *)
Lemma rules_get_some (s : string) (r : rule) :
  rules_get reimbursement_rules s = Some r ->
  s ∈ ["交通费"; "餐饮费"; "住宿费"; "办公用品"; "其他"]
  /\ invoice_required r = true
  /\ (s = other -> r = mk_rule 100 true None None (Some true)).
Proof.
  unfold reimbursement_rules. cbn [rules_get].
  repeat match goal with
         | |- context [String.eqb ?k s] =>
             destruct (String.eqb_spec k s) as [<-|?]
         end;
    try discriminate; intros [= <-];
    (split; [set_solver|]); (split; [reflexivity|]);
    first [reflexivity | intros [=] | (intros E; vm_compute in E; discriminate)].
Qed.

(** NaN compares below nothing and absorbs every sum. *)
Lemma ltb_nan_r (x : float) : (x <? nan)%float = false.
Proof.
  rewrite ltb_spec. change (Prim2SF nan) with S754_nan.
  unfold SFltb, SFcompare. destruct (Prim2SF x); reflexivity.
Qed.

Lemma add_nan_r (x : float) : (x + nan)%float = nan.
Proof.
  rewrite <- (SF2Prim_Prim2SF (x + nan)), add_spec.
  change (Prim2SF nan) with S754_nan.
  unfold SF64add, SFadd. destruct (Prim2SF x) as [ | [] | | ]; reflexivity.
Qed.

Lemma add_nan_l (x : float) : (nan + x)%float = nan.
Proof.
  rewrite <- (SF2Prim_Prim2SF (nan + x)), add_spec.
  change (Prim2SF nan) with S754_nan. reflexivity.
Qed.

Lemma fold_add_from_nan (l : list float) : fold_left PrimFloat.add l nan = nan.
Proof. induction l as [|x l IH]; cbn; [reflexivity|]. now rewrite add_nan_l. Qed.

Lemma fold_add_nan (l : list float) :
  forall a, In nan l -> fold_left PrimFloat.add l a = nan.
Proof.
  induction l as [|x l IH]; intros a; cbn; [contradiction|].
  intros [->|Hin]; [|now apply IH].
  rewrite add_nan_r. apply fold_add_from_nan.
Qed.

Section AgentExtra.

Variable float_of_str : string -> option float.
Variable str_float : float -> string.
Variable json_loads : string -> result json.
Variable json_dumps : option Z -> json -> string.
Variable str_exn : exn -> string.

Local Abbreviation invoke := (invoke float_of_str str_float json_loads json_dumps str_exn).
Local Abbreviation stream := (stream float_of_str str_float json_loads json_dumps str_exn).
Local Abbreviation load_query := (load_query json_loads).
Local Abbreviation failure := (failure str_exn).
Local Abbreviation acceptable := (acceptable float_of_str).
Local Abbreviation judge := (judge float_of_str str_float).
Local Abbreviation run_loop := (run_loop float_of_str str_float).
Local Abbreviation verdicts := (verdicts float_of_str str_float).
Local Abbreviation _check_compliance := (_check_compliance float_of_str str_float).
Local Abbreviation item_amount := (item_amount float_of_str).
Local Abbreviation cap_reason := (cap_reason str_float).
Local Abbreviation basic_checks := (basic_checks str_float).

Lemma resolve_other (category : json) :
  hashable category = true ->
  (forall s, category = JStr s -> s ∉ ["交通费"; "餐饮费"; "住宿费"; "办公用品"]) ->
  resolve_category category = Ok other.
Proof.
  intros Hh Hs. unfold resolve_category. rewrite Hh. cbn [negb].
  destruct category as [| | | |s| |]; try reflexivity.
  destruct (rules_get reimbursement_rules s) as [r|] eqn:Hr; [|reflexivity].
  apply rules_get_some in Hr as (Hin & _).
  specialize (Hs s eq_refl). f_equal.
  repeat (apply elem_of_cons in Hin as [->|Hin];
          [exfalso; apply Hs;
           solve [repeat (apply elem_of_cons; first [left; reflexivity|right])]|]).
  apply list_elem_of_singleton in Hin. exact Hin.
Qed.

(** X1. An expense whose category is missing, is not a string, or names
    none of the four specific categories is judged by the rule of "其他":
    it is compliant exactly when its amount is not above 100 and it has an
    invoice, its reasons name "其他", and the meal accumulator is left
    alone. *)
Theorem X1_unknown_category_other_rule :
  forall today dm fields v dm',
    hashable (item_category fields) = true ->
    (forall s, item_category fields = JStr s ->
               s ∉ ["交通费"; "餐饮费"; "住宿费"; "办公用品"]) ->
    judge today dm fields = Ok (v, dm') ->
    dm' = dm
    /\ v_is_compliant v
       = negb (100 <? v_amount v)%float && truthy (item_has_invoice fields)
    /\ (forall reason, In reason (v_reasons v) ->
          reason = "超出其他最高限额" +:+ str_float 100 +:+ "元"
          \/ reason = "其他需要提供发票").
Proof.
  intros today dm fields v dm' Hh Hs Hj.
  apply judge_ok in Hj as (c & r & _ & Hc & Hr & Hrest).
  rewrite (resolve_other _ Hh Hs) in Hc. injection Hc as <-.
  rewrite lookup_rule_other in Hr. injection Hr as <-.
  cbv zeta in Hrest. change (String.eqb other meals) with false in Hrest.
  destruct Hrest as (-> & -> & ->). split; [reflexivity|].
  unfold Finance.basic_checks. cbn [max_amount invoice_required andb].
  destruct (100 <? v_amount v)%float; destruct (truthy (item_has_invoice fields));
    cbn; (split; [reflexivity|]); intros reason H; decompose [or] H; subst;
    auto; contradiction.
Qed.

Lemma basic_checks_shape (c : string) (r : rule) (amount : float) (has_invoice : json) :
  let above := (max_amount r <? amount)%float in
  let unbacked := invoice_required r && negb (truthy has_invoice) in
  basic_checks c r amount has_invoice
  = (negb above && negb unbacked,
     (if above then [cap_reason c r] else [])
     ++ (if unbacked then [invoice_reason c] else [])).
Proof.
  cbv zeta. unfold Finance.basic_checks.
  destruct (max_amount r <? amount)%float;
    destruct (invoice_required r && negb (truthy has_invoice)); reflexivity.
Qed.

(** X2. A verdict is compliant exactly when it has no reasons, and its
    reasons are taken, in this order, from: over the limit of the
    category, invoice missing, daily meal count exceeded. *)
Theorem X2_verdict_reasons :
  forall today dm fields v dm',
    judge today dm fields = Ok (v, dm') ->
    (v_is_compliant v = true <-> v_reasons v = [])
    /\ exists c r,
         resolve_category (item_category fields) = Ok c
         /\ lookup_rule c = Ok r
         /\ v_reasons v `sublist_of`
            [cap_reason c r; invoice_reason c; daily_limit_reason 3].
Proof.
  intros today dm fields v dm' Hj.
  apply judge_ok in Hj as (c & r & _ & Hc & Hr & Hrest).
  cbv zeta in Hrest. rewrite basic_checks_shape in Hrest. cbn [fst snd] in Hrest.
  set (above := (max_amount r <? v_amount v)%float) in *.
  set (unbacked := invoice_required r && negb (truthy (item_has_invoice fields))) in *.
  assert (Hbasic :
    (if above then [cap_reason c r] else [])
    ++ (if unbacked then [invoice_reason c] else [])
    `sublist_of` [cap_reason c r; invoice_reason c]).
  { destruct above, unbacked; cbn; repeat constructor. }
  destruct (String.eqb_spec c meals) as [->|Hne].
  - destruct Hrest as (_ & _ & limit & Hlimit & Hok & Hreasons).
    assert (limit = 3) as ->.
    { unfold lookup_rule in Hr.
      destruct (rules_get reimbursement_rules meals) as [r'|] eqn:E; [|discriminate].
      injection Hr as ->. vm_compute in E. injection E as <-.
      cbn in Hlimit. congruence. }
    split.
    + rewrite Hok, Hreasons.
      destruct above, unbacked, (3 <? _); cbn; split; congruence.
    + exists meals, r. split; [exact Hc|]. split; [exact Hr|].
      rewrite Hreasons.
      change [cap_reason meals r; invoice_reason meals; daily_limit_reason 3]
        with ([cap_reason meals r; invoice_reason meals] ++ [daily_limit_reason 3]).
      apply sublist_app; [exact Hbasic|].
      destruct (3 <? _); repeat constructor.
  - destruct Hrest as (_ & Hok & Hreasons). split.
    + rewrite Hok, Hreasons. destruct above, unbacked; cbn; split; congruence.
    + exists c, r. split; [exact Hc|]. split; [exact Hr|]. rewrite Hreasons.
      change [cap_reason c r; invoice_reason c; daily_limit_reason 3]
        with ([cap_reason c r; invoice_reason c] ++ [daily_limit_reason 3]).
      now apply sublist_inserts_r.
Qed.

(** The decision taken on one expense. *)
Lemma compliance_decision :
  forall today dm fields v dm' c r,
    judge today dm fields = Ok (v, dm') ->
    resolve_category (item_category fields) = Ok c ->
    lookup_rule c = Ok r ->
    v_is_compliant v = true <->
    (max_amount r <? v_amount v)%float = false
    /\ truthy (item_has_invoice fields) = true
    /\ (c = meals -> meal_count dm (item_date today fields) + 1 <= 3).
Proof.
  intros today dm fields v dm' c r Hj Hc Hr.
  apply judge_ok in Hj as (c' & r' & _ & Hc' & Hr' & Hrest).
  rewrite Hc in Hc'. injection Hc' as <-. rewrite Hr in Hr'. injection Hr' as <-.
  assert (Hinv : invoice_required r = true).
  { unfold lookup_rule in Hr.
    destruct (rules_get reimbursement_rules c) as [r'|] eqn:E; [|discriminate].
    injection Hr as ->. now apply rules_get_some in E. }
  cbv zeta in Hrest. rewrite basic_checks_shape in Hrest. cbn [fst snd] in Hrest.
  rewrite Hinv in Hrest. cbn [andb] in Hrest.
  destruct (String.eqb_spec c meals) as [->|Hne].
  - destruct Hrest as (_ & _ & limit & Hlimit & Hok & _).
    assert (limit = 3) as ->.
    { unfold lookup_rule in Hr.
      destruct (rules_get reimbursement_rules meals) as [r'|] eqn:E; [|discriminate].
      injection Hr as ->. vm_compute in E. injection E as <-.
      cbn in Hlimit. congruence. }
    rewrite bump_count in Hok. rewrite Hok.
    destruct (max_amount r <? v_amount v)%float;
      destruct (truthy (item_has_invoice fields));
      destruct (Z.ltb_spec 3 (meal_count dm (item_date today fields) + 1));
      cbn; split; try discriminate; try (intros (? & ? & ?); try discriminate);
      try (intros _; repeat split; try reflexivity; intros; lia);
      try (specialize (H2 eq_refl); lia).
  - destruct Hrest as (_ & Hok & _). rewrite Hok.
    destruct (max_amount r <? v_amount v)%float;
      destruct (truthy (item_has_invoice fields)); cbn; split;
      try discriminate; try (intros (? & ? & ?); discriminate);
      intros _; repeat split; try reflexivity; intros; contradiction.
Qed.

(** X3. The decision rule: an expense is compliant exactly when its amount
    is not above the limit of its (resolved) category, its invoice field is
    truthy, and, for a meal, the count of its date, this meal included, is
    at most 3.  The date of a meal is taken not to be a NaN float: whether
    a NaN date finds its entry again depends on the identity of the float
    object. *)
Theorem X3_compliance_decision :
  forall today dm fields v dm' c r,
    judge today dm fields = Ok (v, dm') ->
    resolve_category (item_category fields) = Ok c ->
    lookup_rule c = Ok r ->
    (c = meals -> nan_key (item_date today fields) = false) ->
    v_is_compliant v = true <->
    (max_amount r <? v_amount v)%float = false
    /\ truthy (item_has_invoice fields) = true
    /\ (c = meals -> meal_count dm (item_date today fields) + 1 <= 3).
Proof.
  intros today dm fields v dm' c r Hj Hc Hr _.
  exact (compliance_decision today dm fields v dm' c r Hj Hc Hr).
Qed.

Lemma judge_reasons_nil today dm (fields : list (string * json)) v dm' :
  judge today dm fields = Ok (v, dm') ->
  v_is_compliant v = true <-> v_reasons v = [].
Proof.
  intros Hj. apply judge_ok in Hj as (c & r & _ & _ & _ & Hrest).
  cbv zeta in Hrest. rewrite basic_checks_shape in Hrest. cbn [fst snd] in Hrest.
  destruct (String.eqb c meals).
  - destruct Hrest as (_ & _ & limit & _ & -> & ->).
    destruct (max_amount r <? v_amount v)%float;
      destruct (invoice_required r && negb (truthy (item_has_invoice fields)));
      destruct (limit <? _); cbn; split; congruence.
  - destruct Hrest as (_ & -> & ->).
    destruct (max_amount r <? v_amount v)%float;
      destruct (invoice_required r && negb (truthy (item_has_invoice fields)));
      cbn; split; congruence.
Qed.

Lemma annotate_compliant (fields : list (string * json)) (v : verdict) :
  v_is_compliant v = true ->
  exists out_fields,
    annotate fields v = JDict out_fields
    /\ dict_get out_fields "合规" = Some (JBool true)
    /\ (forall k, k <> "合规" -> dict_get out_fields k = dict_get fields k).
Proof.
  intros Hv. unfold annotate. rewrite Hv. eexists. split; [reflexivity|].
  split; [apply dict_get_set_eq|].
  intros k Hk. apply dict_get_set_ne. congruence.
Qed.

Lemma annotate_non_compliant (fields : list (string * json)) (v : verdict) :
  v_is_compliant v = false ->
  exists out_fields,
    annotate fields v = JDict out_fields
    /\ dict_get out_fields "合规" = Some (JBool false)
    /\ dict_get out_fields "原因" = Some (JList (map JStr (v_reasons v)))
    /\ (forall k, k <> "合规" -> k <> "原因" ->
                  dict_get out_fields k = dict_get fields k).
Proof.
  intros Hv. unfold annotate. rewrite Hv. eexists. split; [reflexivity|].
  split; [|split; [apply dict_get_set_eq|]].
  - rewrite dict_get_set_ne by discriminate. apply dict_get_set_eq.
  - intros k Hk1 Hk2. rewrite !dict_get_set_ne by congruence. reflexivity.
Qed.

Lemma outputs_copies (today : string) (items : list json) :
  forall dm vs dm',
    verdicts today dm items = Ok (vs, dm') ->
    Forall (compliant_copy items) (outputs true items vs)
    /\ Forall (non_compliant_copy items) (outputs false items vs).
Proof.
  induction items as [|item rest IH]; intros dm vs dm' H.
  - injection H as <- <-. split; constructor.
  - destruct item as [| | | | | |fields]; try discriminate.
    cbn [Finance.verdicts] in H.
    destruct (judge today dm fields) as [[v dm1]|e] eqn:Hj; [|discriminate].
    cbn [mbind result_bind] in H.
    destruct (verdicts today dm1 rest) as [[vs1 dm2]|e] eqn:Hrest; [|discriminate].
    injection H as <- <-. destruct (IH _ _ _ Hrest) as [IHc IHn].
    assert (Hc : Forall (compliant_copy (JDict fields :: rest)) (outputs true rest vs1)).
    { eapply Forall_impl; [exact IHc|].
      intros out (f & o & Hin & Hrest'). exists f, o. split; [now right|exact Hrest']. }
    assert (Hn : Forall (non_compliant_copy (JDict fields :: rest))
                        (outputs false rest vs1)).
    { eapply Forall_impl; [exact IHn|].
      intros out (f & o & rs & Hin & Hrest'). exists f, o, rs.
      split; [now right|exact Hrest']. }
    cbn [outputs]. pose proof (judge_reasons_nil _ _ _ _ _ Hj) as Hnil.
    destruct (v_is_compliant v) eqn:Hv; cbn [Bool.eqb]; split; auto.
    + constructor; [|exact Hc].
      destruct (annotate_compliant fields v Hv) as (o & -> & H1 & H2).
      exists fields, o. split; [now left|auto].
    + constructor; [|exact Hn].
      destruct (annotate_non_compliant fields v Hv) as (o & -> & H1 & H2 & H3).
      exists fields, o, (v_reasons v). split; [now left|].
      split; [reflexivity|]. split; [exact H1|]. split; [exact H2|].
      split; [|exact H3]. intros Hr. apply Hnil in Hr. discriminate.
Qed.

(** X4. Every item of the two result lists is a copy of an input
    dictionary with the verdict written into it: "合规" is [True] in the
    compliant list; in the other list "合规" is [False] and "原因" is a
    non-empty list of reasons; every other key of the input reads the same
    in the copy. *)
Theorem X4_outputs_are_annotated_copies :
  forall today items r,
    _check_compliance today (JList items) = Ok r ->
    Forall (compliant_copy items) (r_compliant r)
    /\ Forall (non_compliant_copy items) (r_non_compliant r).
Proof.
  intros today items r H. rewrite check_compliance_list in H.
  destruct (verdicts today [] items) as [[vs dm]|e] eqn:Hvs; [|discriminate].
  injection H as <-. cbn [r_compliant r_non_compliant].
  eapply outputs_copies, Hvs.
Qed.

Lemma meal_on_annotate (today d : string) (fields : list (string * json)) v :
  meal_on today d (annotate fields v) = meal_on today d (JDict fields).
Proof.
  unfold annotate, meal_on, item_category, item_date, dict_get_default.
  destruct (v_is_compliant v); now rewrite !dict_get_set_ne by discriminate.
Qed.

Lemma compliant_meals_bound (today d : string) (items : list json) :
  forall dm vs dm',
    verdicts today dm items = Ok (vs, dm') ->
    Z.of_nat (length (List.filter (meal_on today d) (outputs true items vs)))
    <= Z.max 0 (3 - meal_count dm (JStr d)).
Proof.
  induction items as [|item rest IH]; intros dm vs dm' H.
  - injection H as <- <-. cbn. lia.
  - destruct item as [| | | | | |fields]; try discriminate.
    cbn [Finance.verdicts] in H.
    destruct (judge today dm fields) as [[v dm1]|e] eqn:Hj; [|discriminate].
    cbn [mbind result_bind] in H.
    destruct (verdicts today dm1 rest) as [[vs1 dm2]|e] eqn:Hrest; [|discriminate].
    injection H as <- <-. specialize (IH _ _ _ Hrest).
    rewrite (judge_meal_count _ _ today d _ _ _ _ Hj) in IH.
    cbn [outputs]. destruct (v_is_compliant v) eqn:Hv; cbn [Bool.eqb].
    + cbn [List.filter]. rewrite meal_on_annotate.
      destruct (meal_on today d (JDict fields)) eqn:Hm; [|lia].
      cbn [length]. pose proof Hm as [Hcat Hdate]%meal_on_true.
      destruct (judge_meal _ _ today dm fields v dm1 Hcat Hj) as (_ & _ & Hbad).
      rewrite Hdate in Hbad.
      assert (meal_count dm (JStr d) + 1 <= 3).
      { destruct (Z.le_gt_cases (meal_count dm (JStr d) + 1) 3); [assumption|].
        rewrite Hbad in Hv by lia. discriminate. }
      lia.
    + destruct (meal_on today d (JDict fields)); lia.
Qed.

(** X5. Whatever the batch, the compliant list holds at most three meal
    expenses of any one date. *)
Theorem X5_at_most_three_compliant_meals :
  forall today items r d,
    _check_compliance today (JList items) = Ok r ->
    (length (List.filter (meal_on today d) (r_compliant r)) <= 3)%nat.
Proof.
  intros today items r d H. rewrite check_compliance_list in H.
  destruct (verdicts today [] items) as [[vs dm]|e] eqn:Hvs; [|discriminate].
  injection H as <-. cbn [r_compliant].
  apply (compliant_meals_bound today d) in Hvs. cbn [meal_count] in Hvs. lia.
Qed.

(** X6. When the loop ends, the accumulator holds for every date the
    number of meal expenses of that date in the batch, the rejected ones
    included; expenses of other categories are not counted. *)
Theorem X6_accumulator_counts_meals :
  forall today items st d,
    run_loop today initial_state items = Ok st ->
    meal_count (daily_meals st) (JStr d) = meals_on today d items.
Proof.
  intros today items st d H. rewrite run_loop_verdicts in H.
  cbn [daily_meals initial_state] in H.
  destruct (verdicts today [] items) as [[vs dm]|e] eqn:Hvs; [|discriminate].
  injection H as <-. cbn [daily_meals].
  apply (verdicts_meal_count _ _ today d) in Hvs. cbn [meal_count] in Hvs. lia.
Qed.

(** *** Malformed batches *)

Lemma verdicts_non_dict (today : string) (pre post : list json) (item : json) :
  (forall fields, item <> JDict fields) ->
  forall dm vs dm',
    verdicts today dm pre = Ok (vs, dm') ->
    verdicts today dm (pre ++ item :: post) = Raise (AttributeError item).
Proof.
  intros Hitem. induction pre as [|x pre IH]; intros dm vs dm' Hpre.
  - cbn. destruct item; try reflexivity. now destruct (Hitem fields).
  - destruct x as [| | | | | |f]; try discriminate.
    cbn in Hpre |- *.
    destruct (judge today dm f) as [[v dm1]|e']; [|discriminate]. cbn in Hpre |- *.
    destruct (verdicts today dm1 pre) as [[vs1 dm2]|e'] eqn:Hrest; [|discriminate].
    now rewrite (IH dm1 vs1 dm2 Hrest).
Qed.

(** X7. A batch is lost as a whole when its shape is wrong: an item that
    is not a dictionary, met after acceptable items, raises
    [AttributeError] for that item; an "expenses" value that is [None], a
    boolean or a number raises [TypeError]; either way [invoke] returns
    the failure text and no verdict at all. *)
Theorem X7_wrong_shape_aborts :
  (forall today pre item post,
     Forall (acceptable today) pre ->
     (forall fields, item <> JDict fields) ->
     _check_compliance today (JList (pre ++ item :: post))
     = Raise (AttributeError item)
     /\ invoke today (JDict [("expenses", JList (pre ++ item :: post))])
        = failure (AttributeError item))
  /\ (forall today expenses,
        (forall items, expenses <> JList items) ->
        (forall fields, expenses <> JDict fields) ->
        (forall s, expenses <> JStr s) ->
        _check_compliance today expenses = Raise (TypeError expenses)
        /\ invoke today (JDict [("expenses", expenses)])
           = failure (TypeError expenses)).
Proof.
  split.
  - intros today pre item post Hpre Hitem.
    destruct (verdicts_total float_of_str str_float today pre Hpre []) as (vs & dm & Hvs).
    assert (Hraise : _check_compliance today (JList (pre ++ item :: post))
                     = Raise (AttributeError item)).
    { rewrite check_compliance_list.
      now rewrite (verdicts_non_dict today pre post item Hitem [] vs dm Hvs). }
    split; [exact Hraise|]. now rewrite invoke_request, Hraise.
  - intros today expenses Hl Hd Hs.
    assert (Hraise : _check_compliance today expenses = Raise (TypeError expenses)).
    { destruct expenses; try reflexivity;
        [now destruct (Hs s)|now destruct (Hl items)|now destruct (Hd fields)]. }
    split; [exact Hraise|]. now rewrite invoke_request, Hraise.
Qed.

(** X8. Requests that cannot be evaluated are answered, not failed: a
    text query that [json.loads] rejects gets the "invalid JSON" message,
    and data that is not a dictionary, or has no "expenses" key, gets the
    "missing expenses" message, from [invoke] as a return value and from
    [stream] as the terminal event after the notice. *)
Theorem X8_missing_information :
  (forall today s doc,
     json_loads s = Raise (JSONDecodeError doc) ->
     invoke today (JStr s) = missing_json
     /\ stream today (JStr s) = [started; Done (Text missing_json)])
  /\ (forall today query data,
        load_query query = Ok data ->
        (forall fields, data = JDict fields -> dict_get fields "expenses" = None) ->
        invoke today query = missing_expenses
        /\ stream today query = [started; Done (Text missing_expenses)]).
Proof.
  split.
  - intros today s doc Hl. unfold Finance.invoke, Finance.stream.
    cbn [Finance.load_query]. rewrite Hl. split; reflexivity.
  - intros today query data Hl Hno.
    assert (He : evaluate float_of_str str_float today data = Ok None).
    { destruct data as [| | | | | |fields]; try reflexivity.
      cbn [evaluate]. now rewrite (Hno fields eq_refl). }
    rewrite (invoke_loaded float_of_str str_float json_loads json_dumps str_exn today query data Hl).
    rewrite (stream_loaded float_of_str str_float json_loads json_dumps str_exn today query data Hl).
    unfold finish. rewrite He. split; reflexivity.
Qed.

(** X9. A category or a date that is a list or a dictionary cannot be a
    dictionary key: such a category raises [TypeError] for any expense
    whose amount converts; such a date raises [TypeError] for a meal, and
    is never looked at for an expense of another category. *)
Theorem X9_unhashable_keys :
  (forall today dm fields a,
     item_amount fields = Ok a ->
     hashable (item_category fields) = false ->
     judge today dm fields = Raise (TypeError (item_category fields)))
  /\ (forall today dm fields a,
        item_amount fields = Ok a ->
        item_category fields = JStr meals ->
        hashable (item_date today fields) = false ->
        judge today dm fields = Raise (TypeError (item_date today fields)))
  /\ (forall today dm fields a c,
        item_amount fields = Ok a ->
        resolve_category (item_category fields) = Ok c ->
        c <> meals ->
        exists v, judge today dm fields = Ok (v, dm)).
Proof.
  split; [|split].
  - intros today dm fields a Ha Hc. unfold Finance.judge. rewrite Ha.
    cbn [mbind result_bind]. unfold resolve_category. now rewrite Hc.
  - intros today dm fields a Ha Hc Hd. unfold Finance.judge. rewrite Ha.
    cbn [mbind result_bind]. rewrite Hc.
    change (resolve_category (JStr meals)) with (Ok meals).
    cbn [mbind result_bind].
    change (lookup_rule meals) with (Ok (mk_rule 100 true (Some 3) None None)).
    cbn [mbind result_bind].
    destruct (Finance.basic_checks _ _ _ _ _). 
    change (String.eqb meals meals) with true. cbv iota. now rewrite Hd.
  - intros today dm fields a c Ha Hc Hne. unfold Finance.judge. rewrite Ha.
    cbn [mbind result_bind]. rewrite Hc. cbn [mbind result_bind].
    assert (exists r, lookup_rule c = Ok r) as [r Hr].
    { unfold resolve_category in Hc.
      destruct (hashable (item_category fields)); [|discriminate]. cbn [negb] in Hc.
      destruct (item_category fields) as [| | | |s| |];
        try (injection Hc as <-; eexists; exact lookup_rule_other).
      unfold lookup_rule.
      destruct (rules_get reimbursement_rules s) as [r|] eqn:E;
        injection Hc as <-; [rewrite E; eauto|eexists; exact lookup_rule_other]. }
    rewrite Hr. cbn [mbind result_bind].
    destruct (Finance.basic_checks _ _ _ _ _).
    destruct (String.eqb_spec c meals); [contradiction|eauto].
Qed.

(** X10. A NaN amount (the text [NaN] is accepted by [json.loads]) is
    never above a limit: the expense is compliant exactly when it has an
    invoice and, for a meal, its daily count is at most 3 (the date of a
    meal is taken not to be a NaN float as well: whether a NaN date finds
    its entry again depends on the identity of the float object).  Once an
    expense with a NaN amount is in the compliant list, the compliant
    total is NaN. *)
Theorem X10_nan_amount :
  (forall today dm fields v dm' c r,
     judge today dm fields = Ok (v, dm') ->
     v_amount v = nan ->
     resolve_category (item_category fields) = Ok c ->
     lookup_rule c = Ok r ->
     (c = meals -> nan_key (item_date today fields) = false) ->
     v_is_compliant v = true <->
     truthy (item_has_invoice fields) = true
     /\ (c = meals -> meal_count dm (item_date today fields) + 1 <= 3))
  /\ (forall today items r out,
        _check_compliance today (JList items) = Ok r ->
        out ∈ r_compliant r ->
        amount_of float_of_str out = Ok nan ->
        r_total_amount r = nan).
Proof using float_of_str str_float.
  split.
  - intros today dm fields v dm' c r Hj Hnan Hc Hr _.
    rewrite (compliance_decision today dm fields v dm' c r Hj Hc Hr).
    rewrite Hnan, ltb_nan_r.
    split; [intros (_ & H); exact H|intros H; split; [reflexivity|exact H]].
  - intros today items r out H Hin Hout. rewrite check_compliance_list in H.
    destruct (verdicts today [] items) as [[vs dm]|e] eqn:Hvs; [|discriminate].
    injection H as <-. cbn [r_compliant r_total_amount] in Hin |- *.
    apply outputs_amounts in Hvs. unfold float_sum. apply fold_add_nan.
    induction Hvs as [|x a xs amounts Hx _ IH]; [inversion Hin|].
    apply elem_of_cons in Hin as [->|Hin]; [|right; exact (IH Hin)].
    left. rewrite Hout in Hx. now injection Hx.
Qed.

End AgentExtra.

(** *** The theorems at concrete expenses *)

(** A gift of 80 with an invoice: no rule of its own, judged as "其他". *)
Lemma X1_unknown_category_other_rule_witness :
  let fields := expense_fields "礼品" 80 "2025-06-01" true in
  exists v dm',
    judge no_float_of_str opaque_str_float "2025-06-02" [] fields = Ok (v, dm')
    /\ dm' = []
    /\ v_is_compliant v
       = negb (100 <? v_amount v)%float && truthy (item_has_invoice fields)
    /\ (forall reason, In reason (v_reasons v) ->
          reason = "超出其他最高限额" +:+ opaque_str_float 100 +:+ "元"
          \/ reason = "其他需要提供发票").
Proof.
  intros fields. eexists _, _. split; [vm_compute; reflexivity|].
  apply (X1_unknown_category_other_rule no_float_of_str opaque_str_float
           "2025-06-02" [] fields).
  - reflexivity.
  - intros s H. vm_compute in H. injection H as <-. intros Hin.
    repeat (apply elem_of_cons in Hin as [Hin|Hin]; [discriminate Hin|]).
    inversion Hin.
  - reflexivity.
Defined.

(** A ride of 350 without an invoice: two reasons, in the order of the
    checks. *)
Lemma X2_verdict_reasons_witness :
  let fields := expense_fields "交通费" 350 "2025-06-01" false in
  exists v dm',
    judge no_float_of_str opaque_str_float "2025-06-02" [] fields = Ok (v, dm')
    /\ (v_is_compliant v = true <-> v_reasons v = [])
    /\ exists c r,
         resolve_category (item_category fields) = Ok c
         /\ lookup_rule c = Ok r
         /\ v_reasons v `sublist_of`
            [cap_reason opaque_str_float c r; invoice_reason c; daily_limit_reason 3].
Proof.
  intros fields. eexists _, _. split; [vm_compute; reflexivity|].
  refine (X2_verdict_reasons no_float_of_str opaque_str_float
            "2025-06-02" [] fields _ _ _).
  reflexivity.
Defined.

(** A meal of 60 with its invoice, met when its date already counts
    three: turned down for the count. *)
Lemma X3_compliance_decision_witness :
  let fields := expense_fields "餐饮费" 60 "2025-06-01" true in
  let dm := [(JStr "2025-06-01", mk_meal_entry 3 120)] in
  exists v dm' c r,
    judge no_float_of_str opaque_str_float "2025-06-02" dm fields = Ok (v, dm')
    /\ resolve_category (item_category fields) = Ok c
    /\ lookup_rule c = Ok r
    /\ nan_key (item_date "2025-06-02" fields) = false
    /\ (v_is_compliant v = true <->
        (max_amount r <? v_amount v)%float = false
        /\ truthy (item_has_invoice fields) = true
        /\ (c = meals -> meal_count dm (item_date "2025-06-02" fields) + 1 <= 3)).
Proof.
  intros fields dm.
  pose proof (fun v dm' c r H1 H2 H3 H4 =>
                conj H1 (conj H2 (conj H3 (conj H4
                  (X3_compliance_decision no_float_of_str opaque_str_float
                     "2025-06-02" dm fields v dm' c r H1 H2 H3 (fun _ => H4)))))) as W.
  eexists _, _, _, _. apply W; vm_compute; reflexivity.
Defined.

(** The two rides of [transport_batch]. *)
Lemma X4_outputs_are_annotated_copies_witness :
  exists r,
    _check_compliance no_float_of_str opaque_str_float "2025-06-02" transport_batch
    = Ok r
    /\ Forall (compliant_copy transport_items) (r_compliant r)
    /\ Forall (non_compliant_copy transport_items) (r_non_compliant r).
Proof.
  eexists. split; [vm_compute; reflexivity|].
  refine (X4_outputs_are_annotated_copies no_float_of_str opaque_str_float
            "2025-06-02" transport_items _ _).
  reflexivity.
Defined.

(** Three meals of one date and a fourth, undated one, evaluated on that
    date. *)
Lemma X5_at_most_three_compliant_meals_witness :
  let items := [expense "餐饮费" 30 "2025-06-01" true;
                expense "餐饮费" 40 "2025-06-01" true;
                expense "餐饮费" 50 "2025-06-01" true;
                undated "餐饮费" 60 true] in
  exists r,
    _check_compliance no_float_of_str opaque_str_float "2025-06-01" (JList items)
    = Ok r
    /\ (length (List.filter (meal_on "2025-06-01" "2025-06-01") (r_compliant r))
        <= 3)%nat.
Proof.
  intros items. eexists. split; [vm_compute; reflexivity|].
  refine (X5_at_most_three_compliant_meals no_float_of_str opaque_str_float
            "2025-06-01" items _ "2025-06-01" _).
  reflexivity.
Defined.

Lemma X6_accumulator_counts_meals_witness :
  let items := [expense "餐饮费" 30 "2025-06-01" true;
                expense "交通费" 40 "2025-06-01" true;
                expense "餐饮费" 500 "2025-06-01" false] in
  exists st,
    run_loop no_float_of_str opaque_str_float "2025-06-02" initial_state items
    = Ok st
    /\ meal_count (daily_meals st) (JStr "2025-06-01")
       = meals_on "2025-06-02" "2025-06-01" items.
Proof.
  intros items. eexists. split; [vm_compute; reflexivity|].
  refine (X6_accumulator_counts_meals no_float_of_str opaque_str_float
            "2025-06-02" items _ "2025-06-01" _).
  reflexivity.
Defined.

(** A number between two good items; an "expenses" value that is [null]. *)
Lemma X7_wrong_shape_aborts_witness :
  let json_loads := fun _ : string => Raise (JSONDecodeError "") in
  let json_dumps := fun (_ : option Z) (_ : json) => "" in
  let str_exn := fun _ : exn => "" in
  let good := expense "交通费" 250 "2025-06-01" true in
  let items := [good] ++ JInt 5 :: [good] in
  (_check_compliance no_float_of_str opaque_str_float "2025-06-02" (JList items)
   = Raise (AttributeError (JInt 5))
   /\ invoke no_float_of_str opaque_str_float json_loads json_dumps str_exn
        "2025-06-02" (JDict [("expenses", JList items)])
      = failure str_exn (AttributeError (JInt 5)))
  /\ (_check_compliance no_float_of_str opaque_str_float "2025-06-02" JNull
      = Raise (TypeError JNull)
      /\ invoke no_float_of_str opaque_str_float json_loads json_dumps str_exn
           "2025-06-02" (JDict [("expenses", JNull)])
         = failure str_exn (TypeError JNull)).
Proof.
  intros json_loads json_dumps str_exn good items. split.
  - apply (proj1 (X7_wrong_shape_aborts no_float_of_str opaque_str_float
                    json_loads json_dumps str_exn)
             "2025-06-02" [good] (JInt 5) [good]).
    + constructor; [|constructor].
      eexists. split; [reflexivity|].
      split; [eexists; reflexivity|split; reflexivity].
    + intros fields. discriminate.
  - apply (proj2 (X7_wrong_shape_aborts no_float_of_str opaque_str_float
                    json_loads json_dumps str_exn)
             "2025-06-02" JNull); intros; discriminate.
Defined.

(** A text that does not decode, and a dictionary without "expenses". *)
Lemma X8_missing_information_witness :
  let json_loads := fun s : string => Raise (JSONDecodeError s) in
  let json_dumps := fun (_ : option Z) (_ : json) => "" in
  let str_exn := fun _ : exn => "" in
  let query := JDict [("items", JList [])] in
  (invoke no_float_of_str opaque_str_float json_loads json_dumps str_exn
     "2025-06-02" (JStr "expenses: none") = missing_json
   /\ stream no_float_of_str opaque_str_float json_loads json_dumps str_exn
        "2025-06-02" (JStr "expenses: none") = [started; Done (Text missing_json)])
  /\ (invoke no_float_of_str opaque_str_float json_loads json_dumps str_exn
        "2025-06-02" query = missing_expenses
      /\ stream no_float_of_str opaque_str_float json_loads json_dumps str_exn
           "2025-06-02" query = [started; Done (Text missing_expenses)]).
Proof.
  intros json_loads json_dumps str_exn query. split.
  - apply (proj1 (X8_missing_information no_float_of_str opaque_str_float
                    json_loads json_dumps str_exn)
             "2025-06-02" "expenses: none" "expenses: none").
    reflexivity.
  - apply (proj2 (X8_missing_information no_float_of_str opaque_str_float
                    json_loads json_dumps str_exn)
             "2025-06-02" query query).
    + reflexivity.
    + intros fields [= <-]. reflexivity.
Defined.

(** A list as category; a list as date, of a meal and of a ride. *)
Lemma X9_unhashable_keys_witness :
  let listed := [("类别", JList []); ("金额", JInt 10)] in
  let dated c := [("类别", JStr c); ("金额", JInt 10); ("日期", JList [])] in
  judge no_float_of_str opaque_str_float "2025-06-02" [] listed
  = Raise (TypeError (JList []))
  /\ judge no_float_of_str opaque_str_float "2025-06-02" [] (dated "餐饮费")
     = Raise (TypeError (JList []))
  /\ exists v,
       judge no_float_of_str opaque_str_float "2025-06-02" [] (dated "交通费")
       = Ok (v, []).
Proof.
  intros listed dated.
  pose proof (X9_unhashable_keys no_float_of_str opaque_str_float) as (H1 & H2 & H3).
  split; [|split].
  - apply (H1 "2025-06-02" [] listed 10%float); reflexivity.
  - apply (H2 "2025-06-02" [] (dated "餐饮费") 10%float); reflexivity.
  - apply (H3 "2025-06-02" [] (dated "交通费") 10%float "交通费");
      [reflexivity|reflexivity|discriminate].
Defined.

(** A ride whose amount is NaN, with its invoice. *)
Lemma X10_nan_amount_witness :
  let fields := [("类别", JStr "交通费"); ("金额", JFloat nan);
                 ("日期", JStr "2025-06-01"); ("是否有发票", JBool true)] in
  (exists v dm' c r,
     judge no_float_of_str opaque_str_float "2025-06-02" [] fields = Ok (v, dm')
     /\ v_amount v = nan
     /\ resolve_category (item_category fields) = Ok c
     /\ lookup_rule c = Ok r
     /\ nan_key (item_date "2025-06-02" fields) = false
     /\ (v_is_compliant v = true <->
         truthy (item_has_invoice fields) = true
         /\ (c = meals -> meal_count [] (item_date "2025-06-02" fields) + 1 <= 3)))
  /\ exists r out,
       _check_compliance no_float_of_str opaque_str_float "2025-06-02"
         (JList [JDict fields]) = Ok r
       /\ out ∈ r_compliant r
       /\ amount_of no_float_of_str out = Ok nan
       /\ r_total_amount r = nan.
Proof.
  intros fields.
  pose proof (X10_nan_amount no_float_of_str opaque_str_float) as (H1 & H2).
  split.
  - pose proof (fun v dm' c r Hj Hn Hc Hr Hd =>
                  conj Hj (conj Hn (conj Hc (conj Hr (conj Hd
                    (H1 "2025-06-02" [] fields v dm' c r Hj Hn Hc Hr
                        (fun _ => Hd))))))) as W.
    eexists _, _, _, _. apply W; vm_compute; reflexivity.
  - pose proof (fun r out Hc Hin Ho =>
                  conj Hc (conj Hin (conj Ho
                    (H2 "2025-06-02" [JDict fields] r out Hc Hin Ho)))) as W.
    eexists _, _. apply W.
    + vm_compute; reflexivity.
    + cbn [r_compliant]. apply elem_of_cons. left. reflexivity.
    + vm_compute; reflexivity.
Defined.

End FinanceExtra.

(** ** More on the taxi validators *)

Module TaxiExtra.
Import PyStr PyStrFacts Taxi TaxiFacts.

Local Open Scope Z_scope.

Lemma append_assoc (a b c : string) : (a +:+ b) +:+ c = a +:+ b +:+ c.
Proof.
  induction a as [|x a IH]; [reflexivity|].
  change (String x ((a +:+ b) +:+ c) = String x (a +:+ b +:+ c)).
  now rewrite IH.
Qed.

Lemma contains_trans (a b c : string) :
  contains a b = true -> contains b c = true -> contains a c = true.
Proof.
  rewrite !contains_spec. intros (p1 & q1 & ->) (p2 & q2 & ->).
  exists (p2 +:+ p1), (q1 +:+ q2). now rewrite !append_assoc.
Qed.

(** X11. The allow-list of five entries amounts to two: a pickup location
    is approved exactly when it contains "资本大厦" or "学院南路"; the longer
    entries and the whole deny-list change nothing. *)
Theorem X11_location_two_keywords :
  forall location,
    is_valid_pickup_location location
    = contains "资本大厦" location || contains "学院南路" location.
Proof.
  intros location.
  destruct (is_valid_pickup_location location) eqn:Hv.
  - apply is_valid_pickup_location_true in Hv as (v & Hin & Hc).
    symmetry. apply orb_true_iff. unfold VALID_PICKUP_LOCATIONS in Hin.
    repeat (apply elem_of_cons in Hin as [->|Hin]);
      try (left; refine (contains_trans _ _ _ _ Hc); reflexivity);
      try (right; refine (contains_trans _ _ _ _ Hc); reflexivity).
    inversion Hin.
  - symmetry. apply orb_false_iff. split.
    + destruct (contains "资本大厦" location) eqn:Hc; [|reflexivity].
      rewrite <- Hv. symmetry. apply is_valid_pickup_location_true.
      exists "资本大厦". split; [|exact Hc]. unfold VALID_PICKUP_LOCATIONS. set_solver.
    + destruct (contains "学院南路" location) eqn:Hc; [|reflexivity].
      rewrite <- Hv. symmetry. apply is_valid_pickup_location_true.
      exists "学院南路". split; [|exact Hc]. unfold VALID_PICKUP_LOCATIONS. set_solver.
Qed.

(** X12. Whatever the parser and the input, [is_valid_pickup_time]
    returns an empty message exactly when it accepts: every rejection
    comes with a text. *)
Theorem X12_time_message :
  forall (strptime : string -> string -> strptime_result) (pickup_time : string),
    fst (is_valid_pickup_time strptime pickup_time) = true
    <-> snd (is_valid_pickup_time strptime pickup_time) = "".
Proof.
  intros strptime pickup_time. unfold is_valid_pickup_time.
  destruct (try_formats strptime formats pickup_time) as [[t|]|text]; cbn.
  - destruct (in_window t); cbn; split; try reflexivity; discriminate.
  - split; discriminate.
  - split; discriminate.
Qed.

Lemma hhmm_table :
  forallb (fun h =>
    forallb (fun m =>
      match parsed_pickup_time (hhmm h m) with
      | Some t =>
          (hour t =? h) && (minute t =? m) && (second t =? 0)
          && (microsecond t =? 0)
      | None => false
      end) (seqZ 0 60)) (seqZ 0 24) = true.
Proof. vm_compute. reflexivity. Qed.

Lemma hhmm_parses (h m : Z) :
  0 <= h <= 23 -> 0 <= m <= 59 ->
  parsed_pickup_time (hhmm h m) = Some (mk_time h m 0 0).
Proof.
  intros Hh Hm. pose proof hhmm_table as T.
  rewrite forallb_forall in T.
  assert (Hin : In h (seqZ 0 24)) by (apply list_elem_of_In, elem_of_seqZ; lia).
  specialize (T h Hin). rewrite forallb_forall in T.
  assert (Hin' : In m (seqZ 0 60)) by (apply list_elem_of_In, elem_of_seqZ; lia).
  specialize (T m Hin').
  destruct (parsed_pickup_time (hhmm h m)) as [[h' m' s' u']|]; [|discriminate].
  cbn in T. apply andb_true_iff in T as [T Hu]. apply andb_true_iff in T as [T Hs].
  apply andb_true_iff in T as [Hh' Hm'].
  apply Z.eqb_eq in Hh', Hm', Hs, Hu. now subst.
Qed.

(** X13. Every wall-clock time written as "HH:MM" is read back as that
    hour and minute, and it is accepted exactly when the hour is 21 or
    later, or earlier than 5, or the time is 05:00 sharp. *)
Theorem X13_hhmm_window :
  forall h m,
    0 <= h <= 23 -> 0 <= m <= 59 ->
    parsed_pickup_time (hhmm h m) = Some (mk_time h m 0 0)
    /\ (fst (is_valid_pickup_time strptime_time (hhmm h m)) = true
        <-> 21 <= h \/ h < 5 \/ (h = 5 /\ m = 0)).
Proof.
  intros h m Hh Hm. pose proof (hhmm_parses h m Hh Hm) as Hp.
  split; [exact Hp|].
  apply parsed_pickup_time_found in Hp.
  rewrite (window_any_parser _ _ _ Hp).
  unfold time_le, night_start, morning_end; cbn. lia.
Qed.

(** X14. A request is approved exactly when its id is in the ledger, its
    location is valid and its time is valid; the decision echoes the
    request id, and it carries a reason exactly when it is a rejection. *)
Theorem X14_reimburse_decision :
  forall (strptime : string -> string -> strptime_result)
         (request_ids : gset string)
         (request_id pickup_location pickup_time : string),
    let d := reimburse_taxi strptime request_ids request_id
               pickup_location pickup_time in
    (d = approved request_id
     <-> request_id ∈ request_ids
         /\ is_valid_pickup_location pickup_location = true
         /\ fst (is_valid_pickup_time strptime pickup_time) = true)
    /\ d_request_id d = request_id
    /\ (d_status d = "批准" /\ d_reason d = None
        \/ d_status d = "拒绝" /\ exists reason, d_reason d = Some reason).
Proof.
  intros strptime request_ids request_id pickup_location pickup_time d. subst d.
  destruct (decide (request_id ∈ request_ids)) as [Hid|Hid].
  2: { rewrite (reimburse_unknown_id strptime _ _ pickup_location pickup_time Hid).
       split; [|split; [reflexivity|right; split; [reflexivity|eauto]]].
       split; [discriminate|]. intros (H & _). contradiction. }
  destruct (is_valid_pickup_location pickup_location) eqn:Hloc.
  2: { rewrite (reimburse_bad_location strptime _ _ _ pickup_time Hid Hloc).
       split; [|split; [reflexivity|right; split; [reflexivity|eauto]]].
       split; [discriminate|]. intros (_ & H & _). discriminate. }
  destruct (fst (is_valid_pickup_time strptime pickup_time)) eqn:Htime.
  - rewrite (reimburse_approved strptime _ _ _ _ Hid Hloc Htime).
    split; [|split; [reflexivity|left; split; reflexivity]].
    split; auto.
  - rewrite (reimburse_bad_time strptime _ _ _ _ Hid Hloc Htime).
    split; [|split; [reflexivity|right; split; [reflexivity|eauto]]].
    split; [discriminate|]. intros (_ & _ & H). discriminate.
Qed.

(** X15. An id handed out by a form creation is known to the ledger from
    then on, however many forms are created later, so reimbursing it, any
    number of times, is decided by location and time alone: the id is
    never used up. *)
Theorem X15_created_id_stays_valid :
  forall (strptime : string -> string -> strptime_result)
         (n : Z) (request_ids : gset string)
         (loc tm date amount : option string) (later : list Z)
         (pickup_location pickup_time : string),
    let r := create_taxi_request_form n request_ids loc tm date amount in
    let ledger :=
      fold_left (fun ids k => snd (create_taxi_request_form k ids None None None None))
                later (snd r) in
    f_request_id (fst r) ∈ ledger
    /\ (reimburse_taxi strptime ledger (f_request_id (fst r))
          pickup_location pickup_time
        = approved (f_request_id (fst r))
        <-> is_valid_pickup_location pickup_location = true
            /\ fst (is_valid_pickup_time strptime pickup_time) = true).
Proof.
  intros strptime n request_ids loc tm date amount later pickup_location
    pickup_time r ledger.
  assert (Hin : f_request_id (fst r) ∈ ledger).
  { subst ledger. apply fold_create_spec. left. subst r. cbn. set_solver. }
  split; [exact Hin|]. split.
  - intros H.
    destruct (is_valid_pickup_location pickup_location) eqn:Hloc.
    + destruct (fst (is_valid_pickup_time strptime pickup_time)) eqn:Htime; [auto|].
      rewrite (reimburse_bad_time strptime _ _ _ _ Hin Hloc Htime) in H.
      discriminate.
    + rewrite (reimburse_bad_location strptime _ _ _ pickup_time Hin Hloc) in H.
      discriminate.
  - intros [Hloc Htime]. now apply reimburse_approved.
Qed.

Lemma fold_create_size (draws : list Z) :
  forall ids : gset string,
    (size (fold_left
             (fun ids n => snd (create_taxi_request_form n ids None None None None))
             draws ids)
     <= size ids + length draws)%nat.
Proof.
  induction draws as [|n draws IH]; intros ids; cbn [fold_left length].
  - lia.
  - etransitivity; [apply IH|]. rewrite create_adds.
    rewrite size_union_alt, size_singleton.
    pose proof (subseteq_size (ids ∖ {[request_id_of n]}) ids
                  (subseteq_difference_l _ _ _ (reflexivity ids))) as Hle.
    lia.
Qed.

(** X16. The ledger never holds more ids than forms were created, and it
    holds exactly as many when the random values were all different. *)
Theorem X16_ledger_size :
  forall draws : list Z,
    (size (ledger_after draws) <= length draws)%nat
    /\ (NoDup draws -> size (ledger_after draws) = length draws).
Proof.
  intros draws. split.
  - unfold ledger_after. etransitivity; [apply fold_create_size|].
    rewrite size_empty. lia.
  - intros Hnd.
    assert (Heq : ledger_after draws = list_to_set (request_id_of <$> draws)).
    { apply set_eq. intros x. rewrite ledger_after_spec, elem_of_list_to_set,
        list_elem_of_fmap. split; intros (k & H1 & H2); eauto. }
    rewrite Heq, size_list_to_set, length_fmap; [reflexivity|].
    apply NoDup_fmap_2_strong; [|exact Hnd].
    intros a b _ _ H. now apply request_id_of_inj.
Qed.

(** Half past nine in the evening. *)
Lemma X13_hhmm_window_witness :
  (0 <= 21 <= 23 /\ 0 <= 30 <= 59)
  /\ parsed_pickup_time (hhmm 21 30) = Some (mk_time 21 30 0 0)
  /\ (fst (is_valid_pickup_time strptime_time (hhmm 21 30)) = true
      <-> 21 <= 21 \/ 21 < 5 \/ (21 = 5 /\ 30 = 0)).
Proof.
  split; [lia|]. apply (X13_hhmm_window 21 30); lia.
Defined.

(** Two different draws: two ids in the ledger. *)
Lemma X16_ledger_size_witness :
  let draws := [1000000; 1000001] in
  (size (ledger_after draws) <= length draws)%nat
  /\ NoDup draws
  /\ size (ledger_after draws) = length draws.
Proof.
  intros draws.
  assert (Hd : NoDup draws).
  { repeat constructor.
    - intros Hin. apply list_elem_of_singleton in Hin. discriminate.
    - intros Hin. inversion Hin. }
  split; [apply (X16_ledger_size draws)|].
  split; [exact Hd|apply (proj2 (X16_ledger_size draws) Hd)].
Defined.

End TaxiExtra.

(** ** The taxi agent's form and its event stream *)

Module TaxiAgentExtra.
Import Finance Taxi TaxiAgent.

Lemma or_placeholder_nonempty (placeholder : string) (x : option string) :
  placeholder <> "" -> or_placeholder placeholder x <> "".
Proof.
  intros Hp. destruct x as [[|c s]|]; cbn; auto; discriminate.
Qed.

Section ReturnFormFacts.

Variable json_loads : string -> result json.
Variable json_dumps_default : json -> string.

Local Abbreviation return_form := (return_form json_loads json_dumps_default).

(** X17.  How [return_form] fails.  A text that [json.loads] rejects
    raises before anything is written; a value that is not a dictionary
    (given directly, or obtained from the text, which is decoded once
    only) raises [AttributeError] at [keys()], after both
    [skip_summarization] and [escalate] have been set.  A text that decodes
    to a dictionary is treated as that dictionary. *)
Lemma X17_return_form_failures (tool_context : actions) (instructions : option string) :
  (forall s e, json_loads s = Raise e ->
     return_form (JStr s) tool_context instructions = (tool_context, Raise e)) /\
  (forall s v, json_loads s = Ok v ->
     (forall fields, v <> JDict fields) ->
     return_form (JStr s) tool_context instructions
     = (mk_actions (Some true) (Some true), Raise (AttributeError v))) /\
  (forall v, (forall s, v <> JStr s) -> (forall fields, v <> JDict fields) ->
     return_form v tool_context instructions
     = (mk_actions (Some true) (Some true), Raise (AttributeError v))) /\
  (forall s fields, json_loads s = Ok (JDict fields) ->
     return_form (JStr s) tool_context instructions
     = return_form (JDict fields) tool_context instructions).
Proof.
  unfold TaxiAgent.return_form. repeat split.
  - intros s e ->. reflexivity.
  - intros s v -> Hv. destruct v; try reflexivity. now destruct (Hv fields).
  - intros v Hs Hd. destruct v; try reflexivity.
    + now destruct (Hs s).
    + now destruct (Hd fields).
  - intros s fields ->. reflexivity.
Qed.

(** X18.  A form made by [create_taxi_request_form], whatever its
    arguments, goes through [return_form]: both flags are set, the
    [required] list names the five fields of the form, which are exactly
    the declared properties, no field of the form data is an empty string
    (an absent or empty argument has become its placeholder), and the
    form's identifier is in the ledger. *)
Lemma X18_created_form_schema (n : Z) (ids : gset string)
    (pickup_location pickup_time date amount : option string)
    (tool_context : actions) (instructions : option string) :
  let created := create_taxi_request_form n ids pickup_location pickup_time date amount in
  let required := ["request_id"; "pickup_location"; "pickup_time"; "date"; "amount"] in
  return_form (form_to_json (fst created)) tool_context instructions
  = (mk_actions (Some true) (Some true),
     Ok (json_dumps_default
           (form_dict required (form_to_json (fst created)) instructions))) /\
  (exists declared, keys form_properties = Ok declared /\ Permutation required declared) /\
  (exists fields, form_to_json (fst created) = JDict fields /\
     Forall (fun kv => exists c s, snd kv = JStr (String c s)) fields) /\
  f_request_id (fst created) ∈ snd created.
Proof.
  cbv zeta. split; [reflexivity|]. split; [|split].
  - eexists. split; [reflexivity|].
    apply (Permutation_cons_append
             ["pickup_location"; "pickup_time"; "date"; "amount"] "request_id").
  - eexists. split; [reflexivity|].
    assert (Hne : forall t : string, t <> "" -> exists c s, JStr t = JStr (String c s)).
    { intros [|c s] Ht; [now destruct Ht|eauto]. }
    repeat constructor; cbn [snd fst create_taxi_request_form
                             f_request_id f_pickup_location f_pickup_time f_date f_amount];
      apply Hne; try (apply or_placeholder_nonempty; discriminate).
    unfold request_id_of. discriminate.
  - cbn. set_solver.
Qed.

End ReturnFormFacts.

Lemma response_of_raise (ev : run_event) (e : exn) :
  response_of ev = Raise e <->
  exists p rest,
    parts ev = Some (p :: rest) /\ has_text p = false /\
    function_response p = None /\
    existsb has_function_response rest = true /\
    e = AttributeError JNull.
Proof.
  unfold response_of. split.
  - destruct (parts ev) as [[|p rest]|]; try discriminate.
    destruct (has_text p) eqn:Ht; try discriminate.
    cbn [existsb]. unfold has_function_response at 1.
    destruct (function_response p) eqn:Hf; cbn [orb]; try discriminate.
    destruct (existsb has_function_response rest) eqn:Hr; try discriminate.
    intros [= <-]. exists p, rest. auto.
  - intros (p & rest & -> & -> & Hf & Hr & ->).
    cbn [existsb]. unfold has_function_response at 1. rewrite Hf, Hr. reflexivity.
Qed.

Lemma stream_cons (ev : run_event) (rest : list run_event) :
  stream (ev :: rest)
  = if is_final_response ev then
      match response_of ev with
      | Ok response => (Done response :: fst (stream rest), snd (stream rest))
      | Raise e => ([], Some e)
      end
    else (InProgress "正在处理打车费报销请求..." :: fst (stream rest), snd (stream rest)).
Proof.
  cbn [stream]. destruct (stream rest). reflexivity.
Qed.

(** X19.  [stream] answers each runner event with one event of its own
    whose [is_task_complete] is that event's [is_final_response()]: it
    neither stops at a final event nor adds one, so a run without a final
    event yields no completed event and a run with several yields several.
    Every event that is not complete carries the same fixed text. *)
Lemma X19_one_event_per_runner_event (events : list run_event) :
  map is_task_complete (fst (stream events))
  = map is_final_response (firstn (length (fst (stream events))) events) /\
  (snd (stream events) = None -> length (fst (stream events)) = length events) /\
  (forall ev, In ev (fst (stream events)) -> is_task_complete ev = false ->
     ev = InProgress "正在处理打车费报销请求...").
Proof.
  induction events as [|ev rest (IH1 & IH2 & IH3)]; [cbn; intuition|].
  rewrite stream_cons.
  destruct (is_final_response ev) eqn:Hf; [destruct (response_of ev)|]; cbn.
  - rewrite Hf, IH1. repeat split; auto.
    intros ev' [<-|Hin] Hc; [discriminate|auto].
  - repeat split; [discriminate|tauto].
  - rewrite Hf, IH1. repeat split; auto.
    intros ev' [<-|Hin] Hc; [reflexivity|auto].
Qed.

(** X20.  The one way [stream] can fail: a final event whose first part
    has neither text nor a function response while a later part has a
    function response ([next] takes the first part, not the first that
    has a response).  The events before it have been yielded; nothing
    comes after. *)
Lemma X20_stream_failure (events : list run_event) (e : exn) :
  snd (stream events) = Some e <->
  exists pre p rest post,
    events = pre ++ mk_run_event true (Some (p :: rest)) :: post /\
    Forall (fun ev => is_final_response ev = true ->
                      exists response, response_of ev = Ok response) pre /\
    has_text p = false /\ function_response p = None /\
    existsb has_function_response rest = true /\
    e = AttributeError JNull /\
    length (fst (stream events)) = length pre.
Proof.
  split.
  - induction events as [|ev evs IH]; [discriminate|].
    rewrite stream_cons.
    destruct (is_final_response ev) eqn:Hf;
      [destruct (response_of ev) as [c|e'] eqn:Hr|]; cbn [fst snd].
    + intros H. destruct (IH H) as (pre & p & rest & post & -> & Hpre & Hrest).
      exists (ev :: pre), p, rest, post. split; [reflexivity|].
      split; [constructor; eauto|].
      cbn [length]. intuition.
    + intros [= <-]. apply response_of_raise in Hr.
      destruct Hr as (p & rest & Hp & Ht & Hfr & Hex & ->).
      exists [], p, rest, evs. destruct ev as [fin ps]. cbn in Hf, Hp. subst.
      repeat split; auto.
    + intros H. destruct (IH H) as (pre & p & rest & post & -> & Hpre & Hrest).
      exists (ev :: pre), p, rest, post. split; [reflexivity|].
      split; [constructor; [congruence|assumption]|].
      cbn [length]. intuition.
  - intros (pre & p & rest & post & -> & Hpre & Ht & Hfr & Hex & -> & _).
    induction pre as [|ev pre IH].
    + cbn [app]. rewrite stream_cons. cbn [is_final_response].
      assert (Hr : response_of (mk_run_event true (Some (p :: rest)))
                   = Raise (AttributeError JNull)).
      { apply response_of_raise. exists p, rest. auto. }
      rewrite Hr. reflexivity.
    + inversion Hpre as [|? ? Hev Hpre']; subst.
      change ((ev :: pre) ++ ?l) with (ev :: (pre ++ l)). rewrite stream_cons.
      destruct (is_final_response ev) eqn:Hf; cbn [snd]; [|auto].
      destruct (Hev eq_refl) as (c & ->). cbn [snd]. auto.
Qed.

(** A decoder that knows two texts, the empty list and the empty
    dictionary. *)
Lemma X17_return_form_failures_witness :
  let json_loads := fun s : string =>
    if String.eqb s "[]" then Ok (JList [])
    else if String.eqb s "{}" then Ok (JDict [])
    else Raise (JSONDecodeError s) in
  let json_dumps_default := fun _ : json => "{...}" in
  let fresh := mk_actions None None in
  let set := mk_actions (Some true) (Some true) in
  return_form json_loads json_dumps_default (JStr "form") fresh None
  = (fresh, Raise (JSONDecodeError "form"))
  /\ return_form json_loads json_dumps_default (JStr "[]") fresh None
     = (set, Raise (AttributeError (JList [])))
  /\ return_form json_loads json_dumps_default JNull fresh None
     = (set, Raise (AttributeError JNull))
  /\ return_form json_loads json_dumps_default (JStr "{}") fresh None
     = return_form json_loads json_dumps_default (JDict []) fresh None.
Proof.
  intros json_loads json_dumps_default fresh set.
  pose proof (X17_return_form_failures json_loads json_dumps_default fresh None)
    as (H1 & H2 & H3 & H4).
  split; [|split; [|split]].
  - apply H1. reflexivity.
  - apply H2; [reflexivity|intros fields; discriminate].
  - apply H3; intros; discriminate.
  - apply H4. reflexivity.
Defined.

End TaxiAgentExtra.
